(** * RDO Map Overlay: the native Windows launcher (launcher.cpp)

    A shallow embedding of class [RDOLauncher] and of [WinMain].  The
    launcher is orchestration over Win32, Winsock and the C++ runtime, so
    the embedding has three layers:

    - [OS]: the interface of the system calls the launcher makes, as
      functions on an abstract [world];
    - a small state monad [M] over the launcher object, the world and the
      trace of calls made so far; the polling loop of [WaitForPort] is
      [while (true)], so it takes fuel, and a computation that runs out of
      fuel still hands back the state it reached;
    - the methods of [RDOLauncher], one definition per method, in the
      order of the source. *)

From Stdlib Require Import ZArith List String Ascii Bool Lia DecimalString.
Import ListNotations.

Local Open Scope Z_scope.
Local Open Scope list_scope.
Local Open Scope string_scope.

(** ** Win32 data *)

Definition HANDLE := Z.
Definition DWORD := Z.
Definition SOCKET := Z.

Definition NULL : HANDLE := 0.

(** [if (h)] on a handle. *)
Definition nonnull (h : HANDLE) : bool := negb (Z.eqb h NULL).

(** [PROCESS_INFORMATION], as CreateProcessW fills it. *)
Record PROCESS_INFORMATION := {
  hProcess : HANDLE;
  hThread : HANDLE;
  dwProcessId : DWORD;
  dwThreadId : DWORD
}.

(** [PROCESS_INFORMATION x = {0}]. *)
Definition PROCESS_INFORMATION_zero : PROCESS_INFORMATION :=
  {| hProcess := NULL; hThread := NULL; dwProcessId := 0; dwThreadId := 0 |}.

(** The two fields of [STARTUPINFOW] that [StartProcess] sets after
    [= {0}]; [cb] is the size of the structure, a constant of the ABI. *)
Record STARTUPINFOW := {
  dwFlags : DWORD;
  wShowWindow : Z
}.

Definition STARTUPINFOW_zero : STARTUPINFOW := {| dwFlags := 0; wShowWindow := 0 |}.

Definition STARTF_USESHOWWINDOW : DWORD := 1.
Definition SW_HIDE : Z := 0.
Definition CREATE_NEW_CONSOLE : DWORD := 16.
Definition INFINITE : DWORD := 4294967295.
Definition MB_OK : Z := 0.
Definition MB_ICONERROR : Z := 16.

(** Winsock. *)
Definition AF_INET : Z := 2.
Definition SOCK_STREAM : Z := 1.
Definition IPPROTO_TCP : Z := 6.

Record sockaddr_in := {
  sin_family : Z;
  sin_port : Z;
  sin_addr : Z
}.

(** [htons] takes a [u_short]: the [int] port is cut to 16 bits and its two
    bytes are swapped (the host is little-endian). *)
Definition htons (port : Z) : Z :=
  let p := port mod 65536 in
  Z.lor (Z.shiftl (Z.land p 255) 8) (Z.shiftr p 8).

(** [inet_addr] of 127.0.0.1: the four bytes 127, 0, 0, 1 in network order,
    read as a little-endian [u_long]. *)
Definition inet_addr_127_0_0_1 : Z := 16777343.

Definition MAKEWORD (lo hi : Z) : Z := Z.lor (Z.land lo 255) (Z.shiftl (Z.land hi 255) 8).

(** ** std::chrono: durations and [steady_clock] time points count
    nanoseconds; a 64-bit count does not wrap within the lifetime of a
    machine, so it is a plain [Z]. *)
Definition seconds (n : Z) : Z := n * 1000000000.
Definition milliseconds (n : Z) : Z := n * 1000000.

(** ** Strings *)

(** The one-character string holding a double quote (code 34). *)
Definition dquote : string := String (ascii_of_nat 34) EmptyString.

(** The one-character string holding a line feed (code 10). *)
Definition newline : string := String (ascii_of_nat 10) EmptyString.

(** [operator<<] on an integer: decimal digits. *)
Definition decimal (z : Z) : string := NilZero.string_of_int (Z.to_int z).

(** ** The calls the launcher makes, with their arguments and results *)

Inductive Event :=
| EvWcout (line : string)
| EvWcerr (line : string)
| EvPathFileExistsW (path : string) (result : bool)
| EvCreateProcessW (cmdLine : string) (creationFlags : DWORD) (currentDirectory : string)
    (startupInfo : STARTUPINFOW) (result : bool) (processInfo : PROCESS_INFORMATION)
| EvGetLastError (result : DWORD)
| EvSocket (af type protocol : Z) (result : option SOCKET)
| EvConnect (sock : SOCKET) (addr : sockaddr_in) (result : Z)
| EvClosesocket (sock : SOCKET)
| EvSleepFor (duration : Z)
| EvMessageBoxW (text caption : string) (type : Z)
| EvWaitForSingleObject (handle : HANDLE) (timeout : DWORD)
| EvTerminateProcess (handle : HANDLE) (exitCode : Z)
| EvCloseHandle (handle : HANDLE)
| EvWSAStartup (version : Z)
| EvWSACleanup
| EvGetModuleFileNameW (result : string)
| EvAllocConsole
| EvFreeConsole
| EvFreopen (stream : string).

(** ** The operating system

    Every call is a function on an abstract [world].  Queries
    ([PathFileExistsW], [GetLastError], [steady_clock_now],
    [GetModuleFileNameW]) read the world; the other calls also change it.
    [socket] answers [None] for [INVALID_SOCKET].  [CreateProcessW] gets the
    current content of the [PROCESS_INFORMATION] it is to fill and answers
    its [BOOL] and the content it leaves there.

    Every call returns.  A call that never does (a wait with [INFINITE] on a
    process that never exits, a dialog nobody dismisses) has no world to
    answer with, so the statements below are about what the launcher has
    done when such a call has returned, not about whether it does. *)
Record OS := {
  world : Type;
  GetModuleFileNameW : world -> string;
  PathRemoveFileSpecW : string -> string;
  PathFileExistsW : string -> world -> bool;
  CreateProcessW : string -> DWORD -> string -> STARTUPINFOW -> PROCESS_INFORMATION ->
                   world -> bool * PROCESS_INFORMATION * world;
  GetLastError : world -> DWORD;
  socket : Z -> Z -> Z -> world -> option SOCKET * world;
  connect : SOCKET -> sockaddr_in -> world -> Z * world;
  closesocket : SOCKET -> world -> world;
  steady_clock_now : world -> Z;
  sleep_for : Z -> world -> world;
  MessageBoxW : string -> string -> Z -> world -> world;
  WaitForSingleObject : HANDLE -> DWORD -> world -> world;
  TerminateProcess : HANDLE -> Z -> world -> world;
  CloseHandle : HANDLE -> world -> world;
  WSAStartup : Z -> world -> world;
  WSACleanup : world -> world;
  AllocConsole : world -> world;
  FreeConsole : world -> world;
  freopen_s : string -> world -> world
}.

(** ** The launcher object: the four data members of [RDOLauncher]. *)
Record RDOLauncher := {
  installPath : string;
  backendProcess : PROCESS_INFORMATION;
  frontendProcess : PROCESS_INFORMATION;
  debugMode : bool
}.

(** The members before the constructor body runs. *)
Definition RDOLauncher_init : RDOLauncher :=
  {| installPath := EmptyString;
     backendProcess := PROCESS_INFORMATION_zero;
     frontendProcess := PROCESS_INFORMATION_zero;
     debugMode := false |}.

(** [StartProcess] takes [PROCESS_INFORMATION& processInfo]; its two callers
    pass the two members, so a reference is the name of a member. *)
Inductive ProcRef := ref_backendProcess | ref_frontendProcess.

Definition load (r : ProcRef) (l : RDOLauncher) : PROCESS_INFORMATION :=
  match r with
  | ref_backendProcess => backendProcess l
  | ref_frontendProcess => frontendProcess l
  end.

Definition store (r : ProcRef) (v : PROCESS_INFORMATION) (l : RDOLauncher) : RDOLauncher :=
  match r with
  | ref_backendProcess =>
      {| installPath := installPath l; backendProcess := v;
         frontendProcess := frontendProcess l; debugMode := debugMode l |}
  | ref_frontendProcess =>
      {| installPath := installPath l; backendProcess := backendProcess l;
         frontendProcess := v; debugMode := debugMode l |}
  end.

Section Launcher.

Context {os : OS}.

(** ** Program states and the monad *)

Record St := {
  self : RDOLauncher;
  w : world os;
  trace : list Event   (* newest call first *)
}.

Inductive Res (A : Type) :=
| Done (a : A) (s : St)
| OutOfFuel (s : St).

Arguments Done {A} a s.
Arguments OutOfFuel {A} s.

Definition M (A : Type) := St -> Res A.

Definition ret {A} (a : A) : M A := fun s => Done a s.

Definition bind {A B} (m : M A) (k : A -> M B) : M B :=
  fun s => match m s with
           | Done a s' => k a s'
           | OutOfFuel s' => OutOfFuel s'
           end.

Definition out_of_fuel {A} : M A := fun s => OutOfFuel s.

(** The state a computation stops in, finished or not. *)
Definition final {A} (r : Res A) : St :=
  match r with Done _ s => s | OutOfFuel s => s end.

Notation "x <- c1 ;; c2" := (bind c1 (fun x => c2))
  (at level 61, c1 at next level, right associativity).
Notation "c1 ;; c2" := (bind c1 (fun _ => c2))
  (at level 61, right associativity).

(** Members. *)
Definition this : M RDOLauncher := fun s => Done (self s) s.

Definition assign (f : RDOLauncher -> RDOLauncher) : M unit :=
  fun s => Done tt {| self := f (self s); w := w s; trace := trace s |}.

(** A query: reads the world, is recorded in the trace. *)
Definition query {A} (f : world os -> A) (ev : A -> Event) : M A :=
  fun s => let a := f (w s) in
           Done a {| self := self s; w := w s; trace := ev a :: trace s |}.

(** A call with a result. *)
Definition call {A} (f : world os -> A * world os) (ev : A -> Event) : M A :=
  fun s => let (a, w') := f (w s) in
           Done a {| self := self s; w := w'; trace := ev a :: trace s |}.

(** A call whose result the launcher drops. *)
Definition call_ (f : world os -> world os) (ev : Event) : M unit :=
  fun s => Done tt {| self := self s; w := f (w s); trace := ev :: trace s |}.

(** [std::wcout << ... << std::endl] and [std::wcerr << ... << std::endl]:
    one line each. *)
Definition wcout (line : string) : M unit :=
  fun s => Done tt {| self := self s; w := w s; trace := EvWcout line :: trace s |}.

Definition wcerr (line : string) : M unit :=
  fun s => Done tt {| self := self s; w := w s; trace := EvWcerr line :: trace s |}.

(** [CreateProcessW(NULL, cmdLine, NULL, NULL, FALSE, flags, NULL, cwd,
    &startupInfo, &processInfo)] on the member [r]. *)
Definition do_CreateProcessW (cmdLine : string) (flags : DWORD) (cwd : string)
    (startupInfo : STARTUPINFOW) (r : ProcRef) : M bool :=
  fun s =>
    match CreateProcessW os cmdLine flags cwd startupInfo (load r (self s)) (w s) with
    | (ok, pi, w') =>
        Done ok {| self := store r pi (self s); w := w';
                   trace := EvCreateProcessW cmdLine flags cwd startupInfo ok pi :: trace s |}
    end.

(** ** The methods of [RDOLauncher] *)

Definition GetExecutablePath : M string :=
  buffer <- query (GetModuleFileNameW os) EvGetModuleFileNameW ;;
  ret (PathRemoveFileSpecW os buffer).

Definition CheckDependency (path name : string) : M bool :=
  found <- query (PathFileExistsW os path) (EvPathFileExistsW path) ;;
  if negb found then
    wcerr ("Error: " ++ name ++ " not found at: " ++ path) ;;
    ret false
  else ret true.

Definition StartProcess (executable arguments : string) (processInfo : ProcRef)
    (showWindow : bool) : M bool :=
  let startupInfo :=
    if negb showWindow
    then {| dwFlags := STARTF_USESHOWWINDOW; wShowWindow := SW_HIDE |}
    else STARTUPINFOW_zero in
  let cmdLine := dquote ++ executable ++ (dquote ++ " ") ++ arguments in
  l <- this ;;
  ok <- do_CreateProcessW cmdLine CREATE_NEW_CONSOLE (installPath l) startupInfo processInfo ;;
  if ok then ret true
  else
    error <- query (GetLastError os) EvGetLastError ;;
    wcerr ("Failed to start process: " ++ executable ++ " (Error: " ++ decimal error ++ ")") ;;
    ret false.

(** The body of [while (true)] in [WaitForPort]; [break] is [ret tt]. *)
Fixpoint WaitForPort_loop (fuel : nat) (port startTime timeout : Z) : M unit :=
  match fuel with
  | O => out_of_fuel
  | S fuel' =>
      sock <- call (socket os AF_INET SOCK_STREAM IPPROTO_TCP)
                   (EvSocket AF_INET SOCK_STREAM IPPROTO_TCP) ;;
      connected <-
        match sock with
        | Some sk =>
            let addr := {| sin_family := AF_INET; sin_port := htons port;
                           sin_addr := inet_addr_127_0_0_1 |} in
            r <- call (connect os sk addr) (EvConnect sk addr) ;;
            if (r =? 0)%Z then
              call_ (closesocket os sk) (EvClosesocket sk) ;;
              wcout "Backend is ready!" ;;
              ret true
            else
              call_ (closesocket os sk) (EvClosesocket sk) ;;
              ret false
        | None => ret false
        end ;;
      if (connected : bool) then ret tt
      else
        now <- (fun s => Done (steady_clock_now os (w s)) s) ;;
        if (now - startTime >? timeout)%Z then
          wcerr "Timeout waiting for backend" ;;
          ret tt
        else
          call_ (sleep_for os (milliseconds 500)) (EvSleepFor (milliseconds 500)) ;;
          WaitForPort_loop fuel' port startTime timeout
  end.

Definition WaitForPort (fuel : nat) (port timeoutSeconds : Z) : M unit :=
  wcout ("Waiting for backend on port " ++ decimal port ++ "...") ;;
  startTime <- (fun s => Done (steady_clock_now os (w s)) s) ;;
  let timeout := seconds timeoutSeconds in
  WaitForPort_loop fuel port startTime timeout.

Definition ShowErrorDialog (message : string) : M unit :=
  let caption := "RDO Map Overlay - Launch Error" in
  let type := Z.lor MB_OK MB_ICONERROR in
  call_ (MessageBoxW os message caption type) (EvMessageBoxW message caption type).

(** The constructor. *)
Definition RDOLauncher_ctor : M unit :=
  call_ (WSAStartup os (MAKEWORD 2 2)) (EvWSAStartup (MAKEWORD 2 2)) ;;
  path <- GetExecutablePath ;;
  assign (fun l => {| installPath := path; backendProcess := backendProcess l;
                      frontendProcess := frontendProcess l; debugMode := debugMode l |}) ;;
  l <- this ;;
  marker <- query (PathFileExistsW os (installPath l ++ "\debug.txt"))
                  (EvPathFileExistsW (installPath l ++ "\debug.txt")) ;;
  if marker then
    assign (fun l => {| installPath := installPath l; backendProcess := backendProcess l;
                        frontendProcess := frontendProcess l; debugMode := true |}) ;;
    call_ (AllocConsole os) EvAllocConsole ;;
    call_ (freopen_s os "stdout") (EvFreopen "stdout") ;;
    call_ (freopen_s os "stderr") (EvFreopen "stderr")
  else ret tt.

Definition VerifyInstallation : M bool :=
  wcout "Verifying installation..." ;;
  l <- this ;;
  let pythonPath := installPath l ++ "\runtime\python\python.exe" in
  ok <- CheckDependency pythonPath "Python runtime" ;;
  if negb ok then ret false else
  let electronPath := installPath l ++ "\electron\electron.exe" in
  ok <- CheckDependency electronPath "Electron runtime" ;;
  if negb ok then ret false else
  let backendPath := installPath l ++ "\app\backend\app.py" in
  ok <- CheckDependency backendPath "Backend application" ;;
  if negb ok then ret false else
  let frontendPath := installPath l ++ "\app\main.js" in
  ok <- CheckDependency frontendPath "Frontend application" ;;
  if negb ok then ret false else
  wcout "Installation verified successfully" ;;
  ret true.

Definition backend_failure_message : string :=
  "Failed to start backend process." ++ newline ++ newline ++
  "Please check that Python dependencies are installed correctly.".

Definition StartBackend (fuel : nat) : M bool :=
  wcout "Starting backend..." ;;
  l <- this ;;
  let pythonPath := installPath l ++ "\runtime\python\python.exe" in
  let backendPath := installPath l ++ "\app\backend\app.py" in
  let arguments := dquote ++ backendPath ++ dquote in
  ok <- StartProcess pythonPath arguments ref_backendProcess (debugMode l) ;;
  if negb ok then
    ShowErrorDialog backend_failure_message ;;
    ret false
  else
    WaitForPort fuel 5000 30 ;;
    ret true.

Definition frontend_failure_message : string :=
  "Failed to start Electron frontend." ++ newline ++ newline ++
  "Please check that the application files are intact.".

Definition StartFrontend : M bool :=
  wcout "Starting frontend..." ;;
  l <- this ;;
  let electronPath := installPath l ++ "\electron\electron.exe" in
  let appPath := installPath l ++ "\app" in
  let arguments := dquote ++ appPath ++ dquote in
  ok <- StartProcess electronPath arguments ref_frontendProcess true ;;
  if negb ok then
    ShowErrorDialog frontend_failure_message ;;
    ret false
  else ret true.

Definition WaitForExit : M unit :=
  l <- this ;;
  if nonnull (hProcess (frontendProcess l)) then
    call_ (WaitForSingleObject os (hProcess (frontendProcess l)) INFINITE)
          (EvWaitForSingleObject (hProcess (frontendProcess l)) INFINITE)
  else ret tt.

Definition Cleanup : M unit :=
  l <- this ;;
  (if nonnull (hProcess (backendProcess l)) then
     call_ (TerminateProcess os (hProcess (backendProcess l)) 0)
           (EvTerminateProcess (hProcess (backendProcess l)) 0) ;;
     call_ (CloseHandle os (hProcess (backendProcess l)))
           (EvCloseHandle (hProcess (backendProcess l))) ;;
     call_ (CloseHandle os (hThread (backendProcess l)))
           (EvCloseHandle (hThread (backendProcess l)))
   else ret tt) ;;
  l <- this ;;
  if nonnull (hProcess (frontendProcess l)) then
    call_ (CloseHandle os (hProcess (frontendProcess l)))
          (EvCloseHandle (hProcess (frontendProcess l))) ;;
    call_ (CloseHandle os (hThread (frontendProcess l)))
          (EvCloseHandle (hThread (frontendProcess l)))
  else ret tt.

(** The destructor. *)
Definition RDOLauncher_dtor : M unit :=
  Cleanup ;;
  call_ (WSACleanup os) EvWSACleanup ;;
  l <- this ;;
  if debugMode l then call_ (FreeConsole os) EvFreeConsole else ret tt.

Definition installation_failure_message : string :=
  "Installation appears to be incomplete." ++ newline ++ newline ++
  "Please reinstall the application.".

Definition Run (fuel : nat) : M Z :=
  ok <- VerifyInstallation ;;
  if negb ok then
    ShowErrorDialog installation_failure_message ;;
    ret 1
  else
  ok <- StartBackend fuel ;;
  if negb ok then ret 2 else
  call_ (sleep_for os (seconds 1)) (EvSleepFor (seconds 1)) ;;
  ok <- StartFrontend ;;
  if negb ok then ret 3 else
  WaitForExit ;;
  ret 0.

(** [WinMain] (and [main]): the launcher is a local object, so its
    destructor runs after [Run] has produced the exit code. *)
Definition WinMain (fuel : nat) : M Z :=
  RDOLauncher_ctor ;;
  code <- Run fuel ;;
  RDOLauncher_dtor ;;
  ret code.

(** The state in which the process starts. *)
Definition boot (w0 : world os) : St :=
  {| self := RDOLauncher_init; w := w0; trace := [] |}.

End Launcher.

Arguments St : clear implicits.
Arguments Res : clear implicits.
Arguments M : clear implicits.
Arguments Done {os A} a s.
Arguments OutOfFuel {os A} s.

Local Open Scope list_scope.

(** ** Vocabulary of the statements *)

(** The installation layout under the install directory. *)
Definition pythonPath_of (dir : string) : string := (dir ++ "\runtime\python\python.exe")%string.
Definition electronPath_of (dir : string) : string := (dir ++ "\electron\electron.exe")%string.
Definition backendPath_of (dir : string) : string := (dir ++ "\app\backend\app.py")%string.
Definition frontendPath_of (dir : string) : string := (dir ++ "\app\main.js")%string.
Definition appPath_of (dir : string) : string := (dir ++ "\app")%string.

Definition quoted (s : string) : string := (dquote ++ s ++ dquote)%string.

(** The command line [StartProcess] builds. *)
Definition command_line (executable arguments : string) : string :=
  (dquote ++ executable ++ (dquote ++ " ") ++ arguments)%string.

Definition backend_cmdLine (l : RDOLauncher) : string :=
  command_line (pythonPath_of (installPath l)) (quoted (backendPath_of (installPath l))).

Definition frontend_cmdLine (l : RDOLauncher) : string :=
  command_line (electronPath_of (installPath l)) (quoted (appPath_of (installPath l))).

(** The window request of a child: hidden unless [showWindow]. *)
Definition startupInfo_for (showWindow : bool) : STARTUPINFOW :=
  if showWindow then STARTUPINFOW_zero
  else {| dwFlags := STARTF_USESHOWWINDOW; wShowWindow := SW_HIDE |}.

(** A child is hidden when its startup information asks for [SW_HIDE]. *)
Definition hidden (si : STARTUPINFOW) : bool :=
  negb (Z.land (dwFlags si) STARTF_USESHOWWINDOW =? 0)%Z && (wShowWindow si =? SW_HIDE)%Z.

(** The four dependencies in the order [VerifyInstallation] checks them:
    path and display name. *)
Definition dependencies (dir : string) : list (string * string) :=
  [ (pythonPath_of dir, "Python runtime");
    (electronPath_of dir, "Electron runtime");
    (backendPath_of dir, "Backend application");
    (frontendPath_of dir, "Frontend application") ].

Definition missing_line (d : string * string) : string :=
  ("Error: " ++ snd d ++ " not found at: " ++ fst d)%string.

(** The lines written to [std::wcerr], oldest first. *)
Definition wcerr_lines (tr : list Event) : list string :=
  rev (flat_map (fun e => match e with EvWcerr line => [line] | _ => [] end) tr).

(** Classes of events. *)
Definition is_spawn (e : Event) : bool :=
  match e with EvCreateProcessW _ _ _ _ _ _ => true | _ => false end.

Definition is_release (e : Event) : bool :=
  match e with EvTerminateProcess _ _ | EvCloseHandle _ => true | _ => false end.

Definition closes (h : HANDLE) (e : Event) : bool :=
  match e with EvCloseHandle h' => (h' =? h)%Z | _ => false end.

Definition terminates (h : HANDLE) (e : Event) : bool :=
  match e with EvTerminateProcess h' _ => (h' =? h)%Z | _ => false end.

(** The first thing [StartFrontend] does. *)
Definition StartFrontend_entry : Event := EvWcout "Starting frontend...".

(** The events that mark the life of the two children: spawns, the two
    ways [WaitForPort] returns, the wait for the frontend, and releases. *)
Definition is_lifecycle (e : Event) : bool :=
  match e with
  | EvCreateProcessW _ _ _ _ _ _ => true
  | EvWaitForSingleObject _ _ => true
  | EvTerminateProcess _ _ => true
  | EvCloseHandle _ => true
  | EvWcout line => (line =? "Backend is ready!")%string
  | EvWcerr line => (line =? "Timeout waiting for backend")%string
  | _ => false
  end.

(** The lifecycle events of a trace, oldest first. *)
Definition lifecycle (tr : list Event) : list Event := rev (filter is_lifecycle tr).

(** *** The shape of a run of [WaitForPort]'s loop (events oldest first) *)

Definition loopback (port : Z) : sockaddr_in :=
  {| sin_family := AF_INET; sin_port := htons port; sin_addr := inet_addr_127_0_0_1 |}.

Definition EvSocket_tcp : option SOCKET -> Event := EvSocket AF_INET SOCK_STREAM IPPROTO_TCP.

(** One pass through the loop body that did not connect. *)
Inductive probe_failed (port : Z) : list Event -> Prop :=
| probe_no_socket :
    probe_failed port [EvSocket_tcp None]
| probe_refused sk r :
    r <> 0%Z ->
    probe_failed port [EvSocket_tcp (Some sk); EvConnect sk (loopback port) r; EvClosesocket sk].

Inductive poll_outcome := Ready | TimedOut | Unfinished.

(** Failed probes, each followed by one sleep of 500 ms, and then either a
    probe that connects, or a failed probe and the timeout line, or (out of
    fuel) nothing yet. *)
Inductive polling (port : Z) : poll_outcome -> list Event -> Prop :=
| polling_ready sk :
    polling port Ready
      [EvSocket_tcp (Some sk); EvConnect sk (loopback port) 0%Z; EvClosesocket sk;
       EvWcout "Backend is ready!"]
| polling_timeout p :
    probe_failed port p ->
    polling port TimedOut (p ++ [EvWcerr "Timeout waiting for backend"])
| polling_unfinished :
    polling port Unfinished []
| polling_retry p o rest :
    probe_failed port p ->
    polling port o rest ->
    polling port o (p ++ EvSleepFor (milliseconds 500) :: rest).

Definition sleeps (evs : list Event) : nat :=
  List.length (filter (fun e => match e with EvSleepFor _ => true | _ => false end) evs).

Definition connected (e : Event) : bool :=
  match e with EvConnect _ _ r => (r =? 0)%Z | _ => false end.

(** *** What [Cleanup] asks of the system for given members (oldest first) *)
Definition Cleanup_calls (l : RDOLauncher) : list Event :=
  (if nonnull (hProcess (backendProcess l))
   then [EvTerminateProcess (hProcess (backendProcess l)) 0;
         EvCloseHandle (hProcess (backendProcess l));
         EvCloseHandle (hThread (backendProcess l))]
   else []) ++
  (if nonnull (hProcess (frontendProcess l))
   then [EvCloseHandle (hProcess (frontendProcess l));
         EvCloseHandle (hThread (frontendProcess l))]
   else []).

(** *** Handles and the spawns they come from *)



(** ** Assumptions on the system, used where a statement names them *)

(** A failed [CreateProcessW] leaves the [PROCESS_INFORMATION] as it was. *)
Definition CreateProcessW_keeps (os : OS) : Prop :=
  forall cmd fl cwd si pi w pi' w',
    CreateProcessW os cmd fl cwd si pi w = (false, pi', w') -> pi' = pi.

(** A successful [CreateProcessW] puts a process handle there. *)
Definition CreateProcessW_fills (os : OS) : Prop :=
  forall cmd fl cwd si pi w pi' w',
    CreateProcessW os cmd fl cwd si pi w = (true, pi', w') -> hProcess pi' <> NULL.

Record CreateProcessW_laws (os : OS) : Prop := {
  CreateProcessW_failure : CreateProcessW_keeps os;
  CreateProcessW_success : CreateProcessW_fills os
}.

(** [steady_clock] never goes back over the calls of the polling loop, and
    [sleep_for d] returns no earlier than [d] later. *)
Record clock_laws (os : OS) : Prop := {
  socket_clock :
    forall af ty pr w,
      (steady_clock_now os w <= steady_clock_now os (snd (socket os af ty pr w)))%Z;
  connect_clock :
    forall sk addr w,
      (steady_clock_now os w <= steady_clock_now os (snd (connect os sk addr w)))%Z;
  closesocket_clock :
    forall sk w,
      (steady_clock_now os w <= steady_clock_now os (closesocket os sk w))%Z;
  sleep_for_clock :
    forall d w,
      (steady_clock_now os w + d <= steady_clock_now os (sleep_for os d w))%Z
}.

(** ** The public methods, as calls on a launcher *)
Inductive Method :=
| call_VerifyInstallation
| call_StartBackend (fuel : nat)
| call_StartFrontend
| call_WaitForExit
| call_Cleanup
| call_Run (fuel : nat)
| call_dtor.

Definition ignore {os : OS} {A} (m : M os A) : M os unit :=
  fun s => match m s with Done _ s' => Done tt s' | OutOfFuel s' => OutOfFuel s' end.

Definition invoke {os : OS} (m : Method) : M os unit :=
  match m with
  | call_VerifyInstallation => ignore VerifyInstallation
  | call_StartBackend fuel => ignore (StartBackend fuel)
  | call_StartFrontend => ignore StartFrontend
  | call_WaitForExit => WaitForExit
  | call_Cleanup => Cleanup
  | call_Run fuel => ignore (Run fuel)
  | call_dtor => RDOLauncher_dtor
  end.

(** The states a launcher can be in between calls of its public methods:
    constructed from the state the process starts in, then any methods. *)
Inductive reachable {os : OS} (w0 : world os) : St os -> Prop :=
| reach_ctor : reachable w0 (final (RDOLauncher_ctor (boot w0)))
| reach_call s m : reachable w0 s -> reachable w0 (final (invoke m s)).

(** The dependencies that are absent in the world of [s], in check order. *)
Definition missing {os : OS} (s : St os) : list (string * string) :=
  filter (fun d => negb (PathFileExistsW os (fst d) (w s)))
         (dependencies (installPath (self s))).

(** The state after [sleep_for(seconds(1))], the delay [Run] puts between
    [StartBackend] and [StartFrontend]. *)
Definition one_second_later {os : OS} (s : St os) : St os :=
  {| self := self s; w := sleep_for os (seconds 1) (w s);
     trace := EvSleepFor (seconds 1) :: trace s |}.

(** The state after [ShowErrorDialog message]. *)
Definition dialog_shown {os : OS} (message : string) (s : St os) : St os :=
  {| self := self s;
     w := MessageBoxW os message "RDO Map Overlay - Launch Error" 16 (w s);
     trace := EvMessageBoxW message "RDO Map Overlay - Launch Error" 16 :: trace s |}.

(** What [CreateProcessW] answers to the backend's and to the frontend's
    spawn in the world of [s]. *)
Definition backend_spawn {os : OS} (s : St os) : bool * PROCESS_INFORMATION * world os :=
  CreateProcessW os (backend_cmdLine (self s)) CREATE_NEW_CONSOLE (installPath (self s))
    (startupInfo_for (debugMode (self s))) (backendProcess (self s)) (w s).

Definition frontend_spawn {os : OS} (s : St os) : bool * PROCESS_INFORMATION * world os :=
  CreateProcessW os (frontend_cmdLine (self s)) CREATE_NEW_CONSOLE (installPath (self s))
    (startupInfo_for true) (frontendProcess (self s)) (w s).

Definition spawn_ok {W : Type} (r : bool * PROCESS_INFORMATION * W) : bool := fst (fst r).
Definition spawn_info {W : Type} (r : bool * PROCESS_INFORMATION * W) : PROCESS_INFORMATION :=
  snd (fst r).

(** The spawn events of the two children of a launcher with members [l]. *)
Definition backend_spawn_event (l : RDOLauncher) (ok : bool) (pi : PROCESS_INFORMATION) : Event :=
  EvCreateProcessW (backend_cmdLine l) CREATE_NEW_CONSOLE (installPath l)
    (startupInfo_for (debugMode l)) ok pi.

Definition frontend_spawn_event (l : RDOLauncher) (ok : bool) (pi : PROCESS_INFORMATION) : Event :=
  EvCreateProcessW (frontend_cmdLine l) CREATE_NEW_CONSOLE (installPath l)
    (startupInfo_for true) ok pi.



(** The two ways [WaitForPort] returns. *)
Definition port_wait_over (e : Event) : Prop :=
  e = EvWcout "Backend is ready!" \/ e = EvWcerr "Timeout waiting for backend".

(** The lifecycle events of a whole run of [WinMain], oldest first, with
    the exit code ([None]: the run is still polling). *)
Inductive lifecycle_of (l : RDOLauncher) : option Z -> list Event -> Prop :=
| life_not_installed :
    lifecycle_of l (Some 1%Z) []
| life_no_backend :
    lifecycle_of l (Some 2%Z) [backend_spawn_event l false PROCESS_INFORMATION_zero]
| life_polling pb :
    hProcess pb <> NULL ->
    lifecycle_of l None [backend_spawn_event l true pb]
| life_no_frontend pb m :
    hProcess pb <> NULL ->
    port_wait_over m ->
    lifecycle_of l (Some 3%Z)
      [backend_spawn_event l true pb; m;
       frontend_spawn_event l false PROCESS_INFORMATION_zero;
       EvTerminateProcess (hProcess pb) 0; EvCloseHandle (hProcess pb);
       EvCloseHandle (hThread pb)]
| life_complete pb m pf :
    hProcess pb <> NULL ->
    hProcess pf <> NULL ->
    port_wait_over m ->
    lifecycle_of l (Some 0%Z)
      [backend_spawn_event l true pb; m;
       frontend_spawn_event l true pf;
       EvWaitForSingleObject (hProcess pf) INFINITE;
       EvTerminateProcess (hProcess pb) 0; EvCloseHandle (hProcess pb);
       EvCloseHandle (hThread pb);
       EvCloseHandle (hProcess pf); EvCloseHandle (hThread pf)].

(** The lifecycle events of [Run] alone on a launcher with members [l],
    oldest first, with the exit code and the members it leaves. *)
Inductive Run_lifecycle (l : RDOLauncher) : option Z -> list Event -> RDOLauncher -> Prop :=
| run_not_installed :
    Run_lifecycle l (Some 1%Z) [] l
| run_no_backend :
    Run_lifecycle l (Some 2%Z) [backend_spawn_event l false (backendProcess l)] l
| run_polling pb :
    hProcess pb <> NULL ->
    Run_lifecycle l None [backend_spawn_event l true pb] (store ref_backendProcess pb l)
| run_no_frontend pb m :
    hProcess pb <> NULL ->
    port_wait_over m ->
    Run_lifecycle l (Some 3%Z)
      [backend_spawn_event l true pb; m; frontend_spawn_event l false (frontendProcess l)]
      (store ref_backendProcess pb l)
| run_complete pb m pf :
    hProcess pb <> NULL ->
    hProcess pf <> NULL ->
    port_wait_over m ->
    Run_lifecycle l (Some 0%Z)
      [backend_spawn_event l true pb; m; frontend_spawn_event l true pf;
       EvWaitForSingleObject (hProcess pf) INFINITE]
      (store ref_frontendProcess pf (store ref_backendProcess pb l)).

Definition exit_code {os : OS} (r : Res os Z) : option Z :=
  match r with Done code _ => Some code | OutOfFuel _ => None end.

(** [e] is a successful spawn of the frontend of [l]; [e] is a wait on a
    handle. *)
Definition frontend_spawned (l : RDOLauncher) (e : Event) : bool :=
  match e with
  | EvCreateProcessW cmd _ _ _ ok _ => ok && (cmd =? frontend_cmdLine l)%string
  | _ => false
  end.

Definition is_wait (e : Event) : bool :=
  match e with EvWaitForSingleObject _ _ => true | _ => false end.

(** ** A simulated system, to run the launcher on concrete inputs *)
Module Sim.

Record Config := {
  exe : string;                   (* what GetModuleFileNameW answers *)
  files : list string;            (* the paths that exist *)
  refused : list string;          (* the command lines CreateProcessW refuses *)
  listening_from : option nat     (* the connect (counted from 0) from which the
                                     port accepts; None: it never does *)
}.

Record World := {
  now : Z;
  connects : nat;
  next_handle : positive;
  last_error : DWORD
}.

Definition start : World :=
  {| now := 0; connects := 0; next_handle := 100; last_error := 0 |}.

Definition mem (x : string) (l : list string) : bool := existsb (String.eqb x) l.

Fixpoint has_backslash (s : string) : bool :=
  match s with
  | EmptyString => false
  | String c rest => Ascii.eqb c (ascii_of_nat 92) || has_backslash rest
  end.

(** Cuts the trailing file name and its backslash. *)
Fixpoint remove_file_spec (s : string) : string :=
  match s with
  | EmptyString => EmptyString
  | String c rest =>
      if has_backslash rest then String c (remove_file_spec rest) else EmptyString
  end.

Definition tick (d : Z) (x : World) : World :=
  {| now := now x + d; connects := connects x; next_handle := next_handle x;
     last_error := last_error x |}.

Definition create (refused : list string) (cmd : string) (pi : PROCESS_INFORMATION)
    (x : World) : bool * PROCESS_INFORMATION * World :=
  if mem cmd refused then
    (false, pi,
     {| now := now x; connects := connects x; next_handle := next_handle x;
        last_error := 2 |})
  else
    (true,
     {| hProcess := Z.pos (next_handle x); hThread := Z.pos (next_handle x + 1);
        dwProcessId := Z.pos (next_handle x + 2);
        dwThreadId := Z.pos (next_handle x + 3) |},
     {| now := now x; connects := connects x; next_handle := next_handle x + 4;
        last_error := last_error x |}).

Definition dial (from : option nat) (x : World) : Z * World :=
  let accepted := match from with Some k => (k <=? connects x)%nat | None => false end in
  (if accepted then 0 else -1,
   {| now := now x + milliseconds 1; connects := S (connects x);
      next_handle := next_handle x; last_error := last_error x |})%Z.

Definition os (c : Config) : OS :=
  {| world := World;
     GetModuleFileNameW := fun _ => exe c;
     PathRemoveFileSpecW := remove_file_spec;
     PathFileExistsW := fun path _ => mem path (files c);
     CreateProcessW := fun cmd _ _ _ pi x => create (refused c) cmd pi x;
     GetLastError := last_error;
     socket := fun _ _ _ x => (Some 7%Z, x);
     connect := fun _ _ x => dial (listening_from c) x;
     closesocket := fun _ x => x;
     steady_clock_now := now;
     sleep_for := tick;
     MessageBoxW := fun _ _ _ x => x;
     WaitForSingleObject := fun _ _ x => x;
     TerminateProcess := fun _ _ x => x;
     CloseHandle := fun _ x => x;
     WSAStartup := fun _ x => x;
     WSACleanup := fun x => x;
     AllocConsole := fun x => x;
     FreeConsole := fun x => x;
     freopen_s := fun _ x => x |}.

Definition dir : string := "C:\RDO".

Definition installed : list string :=
  map fst (dependencies dir).

(** A complete installation whose backend listens from the second probe. *)
Definition healthy : Config :=
  {| exe := "C:\RDO\launcher.exe"; files := installed; refused := [];
     listening_from := Some 1%nat |}.

(** The backend starts and never listens. *)
Definition deaf : Config :=
  {| exe := "C:\RDO\launcher.exe"; files := installed; refused := [];
     listening_from := None |}.

(** The system refuses to start the interpreter. *)
Definition no_backend : Config :=
  {| exe := "C:\RDO\launcher.exe"; files := installed;
     refused := [backend_cmdLine {| installPath := dir;
                                    backendProcess := PROCESS_INFORMATION_zero;
                                    frontendProcess := PROCESS_INFORMATION_zero;
                                    debugMode := false |}];
     listening_from := Some 0%nat |}.

(** The system refuses to start the UI runtime. *)
Definition no_frontend : Config :=
  {| exe := "C:\RDO\launcher.exe"; files := installed;
     refused := [frontend_cmdLine {| installPath := dir;
                                     backendProcess := PROCESS_INFORMATION_zero;
                                     frontendProcess := PROCESS_INFORMATION_zero;
                                     debugMode := false |}];
     listening_from := Some 0%nat |}.


(** A constructed launcher on the simulated system. *)
Definition constructed (c : Config) : St (os c) :=
  final (RDOLauncher_ctor (boot (os := os c) start)).

(** The launcher after [Run] on the healthy system: both children spawned,
    the frontend has exited, the destructor has not run yet. *)
Definition ran : St (os healthy) := final (Run 5 (constructed healthy)).

End Sim.

(** ** The frontend's command line as the specification words it: the
    quoted UI-runtime binary followed by the quoted install root. *)
Definition frontend_cmdLine_install_root (l : RDOLauncher) : string :=
  (quoted (electronPath_of (installPath l)) ++ " " ++ quoted (installPath l))%string.

(** The spawn requests in a trace, oldest first: command line, working
    directory and startup information. *)
Definition spawn_requests (tr : list Event) : list (string * string * STARTUPINFOW) :=
  rev (flat_map (fun e => match e with
                          | EvCreateProcessW cmd _ cwd si _ _ => [(cmd, cwd, si)]
                          | _ => []
                          end) tr).

(** ** Vocabulary of the further properties *)

(** Classes of events: what the polling loop may issue, what
    [VerifyInstallation] may issue, dialogs, and the calls that set the
    process up and tear it down (Winsock, the module path, the console). *)
Definition is_poll (e : Event) : bool :=
  match e with
  | EvSocket _ _ _ _ | EvConnect _ _ _ | EvClosesocket _ | EvSleepFor _
  | EvWcout _ | EvWcerr _ => true
  | _ => false
  end.

Definition is_verify (e : Event) : bool :=
  match e with
  | EvWcout _ | EvWcerr _ | EvPathFileExistsW _ _ => true
  | _ => false
  end.

Definition is_dialog (e : Event) : bool :=
  match e with EvMessageBoxW _ _ _ => true | _ => false end.

Definition is_setup (e : Event) : bool :=
  match e with
  | EvWSAStartup _ | EvWSACleanup | EvAllocConsole | EvFreeConsole | EvFreopen _
  | EvGetModuleFileNameW _ => true
  | _ => false
  end.

(** The events of one class in a trace, oldest first. *)
Definition view (f : Event -> bool) (tr : list Event) : list Event := rev (filter f tr).

(** The paths asked of [PathFileExistsW], oldest first. *)
Definition file_queries (tr : list Event) : list string :=
  rev (flat_map (fun e => match e with EvPathFileExistsW p _ => [p] | _ => [] end) tr).

(** The paths a check of [paths] in order looks at when it stops at the
    first one that is not present. *)
Fixpoint until_missing (present : string -> bool) (paths : list string) : list string :=
  match paths with
  | [] => []
  | p :: rest => p :: (if present p then until_missing present rest else [])
  end.

(** The sockets a list of events opens and the sockets it closes. *)
Definition sockets_opened (evs : list Event) : list SOCKET :=
  flat_map (fun e => match e with EvSocket _ _ _ (Some sk) => [sk] | _ => [] end) evs.

Definition sockets_closed (evs : list Event) : list SOCKET :=
  flat_map (fun e => match e with EvClosesocket sk => [sk] | _ => [] end) evs.

(** The dialog [ShowErrorDialog message] puts up. *)
Definition error_dialog (message : string) : Event :=
  EvMessageBoxW message "RDO Map Overlay - Launch Error" 16.

(** The dialogs that go with an exit code of [Run]. *)
Definition dialogs_of_exit (code : option Z) : list Event :=
  match code with
  | Some 1%Z => [error_dialog installation_failure_message]
  | Some 2%Z => [error_dialog backend_failure_message]
  | Some 3%Z => [error_dialog frontend_failure_message]
  | _ => []
  end.

(** The member a reference does not name. *)
Definition other (r : ProcRef) : ProcRef :=
  match r with
  | ref_backendProcess => ref_frontendProcess
  | ref_frontendProcess => ref_backendProcess
  end.

(** [s'] comes after [s] by events that neither release a handle nor
    belong to set-up and tear-down, with the install path and the debug
    mode as they were. *)
Definition runs {os : OS} (s s' : St os) : Prop :=
  exists evs,
    trace s' = evs ++ trace s /\
    filter is_release evs = [] /\
    filter is_setup evs = [] /\
    installPath (self s') = installPath (self s) /\
    debugMode (self s') = debugMode (self s).

(** Checks [htons (htons q) = q] for the [n] values from [q] on. *)
Fixpoint htons_twice_from (n : nat) (q : Z) : bool :=
  match n with
  | O => true
  | S n' => (htons (htons q) =? q)%Z && htons_twice_from n' (q + 1)%Z
  end.

(** ** Vocabulary of the revised statements *)
















(** ** One pass through the loop of [WaitForPort], for the proofs

    [pass] is the loop body as a function of the state: it connected, the
    timeout has expired, or it slept and the loop goes round again.
    [WaitForPort_loop_unfold] below ties it to [WaitForPort_loop]. *)
Inductive Pass {os : OS} :=
| Connected (s : St os)
| Expired (s : St os)
| Again (s : St os).

Definition check_timeout {os : OS} (startTime timeout : Z) (s : St os) : Pass :=
  if (steady_clock_now os (w s) - startTime >? timeout)%Z then
    Expired {| self := self s; w := w s;
               trace := EvWcerr "Timeout waiting for backend" :: trace s |}
  else
    Again {| self := self s; w := sleep_for os (milliseconds 500) (w s);
             trace := EvSleepFor (milliseconds 500) :: trace s |}.

Definition pass {os : OS} (port startTime timeout : Z) (s : St os) : Pass :=
  match socket os AF_INET SOCK_STREAM IPPROTO_TCP (w s) with
  | (Some sk, w1) =>
      match connect os sk (loopback port) w1 with
      | (r, w2) =>
          let tr := EvClosesocket sk :: EvConnect sk (loopback port) r ::
                    EvSocket_tcp (Some sk) :: trace s in
          if (r =? 0)%Z then
            Connected {| self := self s; w := closesocket os sk w2;
                         trace := EvWcout "Backend is ready!" :: tr |}
          else
            check_timeout startTime timeout
              {| self := self s; w := closesocket os sk w2; trace := tr |}
      end
  | (None, w1) =>
      check_timeout startTime timeout
        {| self := self s; w := w1; trace := EvSocket_tcp None :: trace s |}
  end.

(** * Properties *)

Section Polling.

Context {os : OS}.

Lemma WaitForPort_loop_unfold fuel port startTime timeout (s : St os) :
  WaitForPort_loop (S fuel) port startTime timeout s =
  match pass port startTime timeout s with
  | Connected s' => Done tt s'
  | Expired s' => Done tt s'
  | Again s' => WaitForPort_loop fuel port startTime timeout s'
  end.
Proof.
  cbn [WaitForPort_loop]. unfold pass, check_timeout, bind, call, call_, ret, wcout, wcerr.
  fold (loopback port). unfold EvSocket_tcp.
  destruct (socket os AF_INET SOCK_STREAM IPPROTO_TCP (w s)) as [[sk|] w1]; cbn.
  - destruct (connect os sk (loopback port) w1) as [r w2]; cbn.
    destruct (r =? 0)%Z; cbn; [reflexivity|].
    destruct (_ >? _)%Z; reflexivity.
  - destruct (_ >? _)%Z; reflexivity.
Qed.

(** The events of one pass, oldest first, and what it leaves alone. *)
Lemma pass_Connected port startTime timeout (s s' : St os) :
  pass port startTime timeout s = Connected s' ->
  self s' = self s /\
  exists sk,
    trace s' = rev [EvSocket_tcp (Some sk); EvConnect sk (loopback port) 0%Z;
                    EvClosesocket sk; EvWcout "Backend is ready!"] ++ trace s.
Proof.
  unfold pass, check_timeout.
  destruct (socket os _ _ _ (w s)) as [[sk|] w1].
  - destruct (connect os sk (loopback port) w1) as [r w2].
    destruct (r =? 0)%Z eqn:Er.
    + apply Z.eqb_eq in Er. subst r. intros [= <-]. split; [reflexivity|].
      exists sk. reflexivity.
    + destruct (_ >? _)%Z; discriminate.
  - destruct (_ >? _)%Z; discriminate.
Qed.

Lemma pass_Expired port startTime timeout (s s' : St os) :
  pass port startTime timeout s = Expired s' ->
  self s' = self s /\
  (steady_clock_now os (w s') - startTime > timeout)%Z /\
  exists p,
    probe_failed port p /\
    trace s' = rev (p ++ [EvWcerr "Timeout waiting for backend"]) ++ trace s.
Proof.
  unfold pass, check_timeout.
  destruct (socket os _ _ _ (w s)) as [[sk|] w1].
  - destruct (connect os sk (loopback port) w1) as [r w2].
    destruct (r =? 0)%Z eqn:Er; [discriminate|].
    apply Z.eqb_neq in Er. cbn [w self trace].
    destruct (_ >? _)%Z eqn:Et; [|discriminate].
    intros [= <-]. cbn [w self trace]. repeat split; [lia|].
    eexists. split; [apply (probe_refused port sk r Er)|reflexivity].
  - cbn [w self trace].
    destruct (_ >? _)%Z eqn:Et; [|discriminate].
    intros [= <-]. cbn [w self trace]. repeat split; [lia|].
    eexists. split; [apply probe_no_socket|reflexivity].
Qed.

Lemma pass_Again port startTime timeout (s s' : St os) :
  pass port startTime timeout s = Again s' ->
  self s' = self s /\
  exists p,
    probe_failed port p /\
    trace s' = rev (p ++ [EvSleepFor (milliseconds 500)]) ++ trace s.
Proof.
  unfold pass, check_timeout.
  destruct (socket os _ _ _ (w s)) as [[sk|] w1].
  - destruct (connect os sk (loopback port) w1) as [r w2].
    destruct (r =? 0)%Z eqn:Er; [discriminate|].
    apply Z.eqb_neq in Er. cbn [w self trace].
    destruct (_ >? _)%Z eqn:Et; [discriminate|].
    intros [= <-]. split; [reflexivity|].
    eexists. split; [apply (probe_refused port sk r Er)|reflexivity].
  - cbn [w self trace].
    destruct (_ >? _)%Z eqn:Et; [discriminate|].
    intros [= <-]. split; [reflexivity|].
    eexists. split; [apply probe_no_socket|reflexivity].
Qed.

(** Under the clock laws a pass that goes round again has let at least
    500 ms go by; any pass that starts after the timeout does not. *)
Lemma pass_Again_clock (Hc : clock_laws os) port startTime timeout (s s' : St os) :
  pass port startTime timeout s = Again s' ->
  (steady_clock_now os (w s) + milliseconds 500 <= steady_clock_now os (w s'))%Z /\
  (steady_clock_now os (w s) - startTime <= timeout)%Z.
Proof.
  unfold pass, check_timeout.
  pose proof (socket_clock os Hc AF_INET SOCK_STREAM IPPROTO_TCP (w s)) as H1.
  destruct (socket os _ _ _ (w s)) as [[sk|] w1]; cbn [snd] in H1.
  - pose proof (connect_clock os Hc sk (loopback port) w1) as H2.
    destruct (connect os sk (loopback port) w1) as [r w2]; cbn [snd] in H2.
    pose proof (closesocket_clock os Hc sk w2) as H3.
    destruct (r =? 0)%Z; [discriminate|]. cbn [w self trace].
    destruct (_ >? _)%Z eqn:Et; [discriminate|].
    intros [= <-]. cbn [w].
    pose proof (sleep_for_clock os Hc (milliseconds 500) (closesocket os sk w2)).
    change (milliseconds 500) with 500000000%Z in *. lia.
  - cbn [w self trace].
    destruct (_ >? _)%Z eqn:Et; [discriminate|].
    intros [= <-]. cbn [w].
    pose proof (sleep_for_clock os Hc (milliseconds 500) w1).
    change (milliseconds 500) with 500000000%Z in *. lia.
Qed.

Lemma pass_late (Hc : clock_laws os) port startTime timeout (s : St os) :
  (steady_clock_now os (w s) - startTime > timeout)%Z ->
  forall s', pass port startTime timeout s <> Again s'.
Proof.
  intros Hlate s' H. apply (pass_Again_clock Hc) in H. lia.
Qed.

End Polling.

Section Loop.

Context {os : OS}.

Lemma probe_failed_quiet port p :
  probe_failed port p ->
  sleeps p = 0%nat /\ existsb connected p = false /\
  filter is_lifecycle p = [] /\
  Forall (fun e => is_release e = false /\ is_spawn e = false) p.
Proof.
  intros [|sk r Hr]; cbn.
  - repeat split; repeat constructor.
  - apply Z.eqb_neq in Hr. rewrite Hr. repeat split; repeat constructor.
Qed.

Lemma sleeps_app l1 l2 : sleeps (l1 ++ l2) = (sleeps l1 + sleeps l2)%nat.
Proof. unfold sleeps. rewrite filter_app, length_app. reflexivity. Qed.

(** What the shape of a polling run says about the events in it. *)
Lemma polling_facts port o evs :
  polling port o evs ->
  filter is_lifecycle evs =
    match o with
    | Ready => [EvWcout "Backend is ready!"]
    | TimedOut => [EvWcerr "Timeout waiting for backend"]
    | Unfinished => []
    end /\
  Forall (fun e => is_release e = false /\ is_spawn e = false) evs /\
  (o <> Ready -> existsb connected evs = false).
Proof.
  induction 1 as [sk|p Hp| |p o rest Hp Hrest IH].
  - cbn. repeat split; [repeat constructor; auto|congruence].
  - destruct (probe_failed_quiet port p Hp) as (_ & Hc & Hl & Hq).
    rewrite filter_app, Hl, existsb_app, Hc. cbn. repeat split.
    apply Forall_app. split; [exact Hq|repeat constructor].
  - cbn. repeat split. constructor.
  - destruct (probe_failed_quiet port p Hp) as (_ & Hc & Hl & Hq).
    destruct IH as (IHl & IHq & IHc).
    rewrite filter_app, Hl, existsb_app, Hc. cbn. repeat split.
    + exact IHl.
    + apply Forall_app. split; [exact Hq|]. constructor; [split; reflexivity|exact IHq].
    + exact IHc.
Qed.


Lemma rev_snoc_app (p rest : list Event) (e : Event) (tr : list Event) :
  rev rest ++ rev (p ++ [e]) ++ tr = rev (p ++ e :: rest) ++ tr.
Proof.
  change (p ++ e :: rest) with (p ++ [e] ++ rest).
  rewrite (app_assoc p [e] rest), (rev_app_distr (p ++ [e]) rest), <- app_assoc.
  reflexivity.
Qed.

(** More fuel does not change a result. *)
Lemma WaitForPort_loop_fuel port startTime timeout fuel :
  forall (s s' : St os) fuel',
    WaitForPort_loop fuel port startTime timeout s = Done tt s' ->
    (fuel <= fuel')%nat ->
    WaitForPort_loop fuel' port startTime timeout s = Done tt s'.
Proof.
  induction fuel as [|fuel IH]; intros s s' fuel' H Hle.
  - discriminate H.
  - destruct fuel' as [|fuel']; [lia|].
    rewrite WaitForPort_loop_unfold in *.
    destruct (pass port startTime timeout s); try exact H.
    apply IH; [exact H|lia].
Qed.

(** The loop, whatever the system does and however much fuel it gets:
    the events follow [polling] and the members are not touched. *)
Lemma WaitForPort_loop_shape port startTime timeout fuel :
  forall s : St os,
    exists o evs,
      polling port o evs /\
      trace (final (WaitForPort_loop fuel port startTime timeout s)) = rev evs ++ trace s /\
      self (final (WaitForPort_loop fuel port startTime timeout s)) = self s /\
      match WaitForPort_loop fuel port startTime timeout s with
      | Done _ _ => o = Ready \/ o = TimedOut
      | OutOfFuel _ => o = Unfinished
      end.
Proof.
  induction fuel as [|fuel IH]; intros s.
  - exists Unfinished, []. cbn. repeat split. constructor.
  - rewrite WaitForPort_loop_unfold.
    destruct (pass port startTime timeout s) as [s1|s1|s1] eqn:Ep.
    + apply pass_Connected in Ep. destruct Ep as (Hs & sk & Ht).
      exists Ready. eexists. cbn [final]. repeat split; [apply (polling_ready port sk)|exact Ht|exact Hs|].
      left; reflexivity.
    + apply pass_Expired in Ep. destruct Ep as (Hs & _ & p & Hp & Ht).
      exists TimedOut. eexists. cbn [final].
      repeat split; [apply (polling_timeout port p Hp)|exact Ht|exact Hs|].
      right; reflexivity.
    + apply pass_Again in Ep. destruct Ep as (Hs & p & Hp & Ht).
      destruct (IH s1) as (o & rest & Hpoll & Htr & Hself & Hres).
      exists o, (p ++ EvSleepFor (milliseconds 500) :: rest).
      repeat split.
      * apply polling_retry; assumption.
      * rewrite Htr, Ht. apply rev_snoc_app.
      * rewrite Hself. exact Hs.
      * exact Hres.
Qed.

(** Under the clock laws the loop returns: when [k] sleeps of 500 ms are
    enough to pass the timeout, [S k] units of fuel are enough. *)
Lemma WaitForPort_loop_returns (Hc : clock_laws os) port startTime timeout k :
  forall s : St os,
    (timeout - (steady_clock_now os (w s) - startTime) < Z.of_nat k * milliseconds 500)%Z ->
    exists o evs s',
      WaitForPort_loop (S k) port startTime timeout s = Done tt s' /\
      self s' = self s /\
      trace s' = rev evs ++ trace s /\
      polling port o evs /\
      (sleeps evs <= k)%nat /\
      (o = Ready \/
       o = TimedOut /\ (steady_clock_now os (w s') - startTime > timeout)%Z).
Proof.
  induction k as [|k IH]; intros s Hk; rewrite WaitForPort_loop_unfold;
    destruct (pass port startTime timeout s) as [s1|s1|s1] eqn:Ep.
  - apply pass_Connected in Ep. destruct Ep as (Hs & sk & Ht).
    exists Ready. eexists. exists s1.
    repeat split; [exact Hs|exact Ht|apply (polling_ready port sk)|cbn; lia|left; reflexivity].
  - apply pass_Expired in Ep. destruct Ep as (Hs & Hlate & p & Hp & Ht).
    exists TimedOut. eexists. exists s1.
    repeat split; [exact Hs|exact Ht|apply (polling_timeout port p Hp)| |right; split; [reflexivity|exact Hlate]].
    rewrite sleeps_app. destruct (probe_failed_quiet port p Hp) as (-> & _). cbn. lia.
  - exfalso. apply (pass_late Hc port startTime timeout s) with (s' := s1); [|exact Ep].
    change (Z.of_nat 0) with 0%Z in Hk. lia.
  - apply pass_Connected in Ep. destruct Ep as (Hs & sk & Ht).
    exists Ready. eexists. exists s1.
    repeat split; [exact Hs|exact Ht|apply (polling_ready port sk)|cbn; lia|left; reflexivity].
  - apply pass_Expired in Ep. destruct Ep as (Hs & Hlate & p & Hp & Ht).
    exists TimedOut. eexists. exists s1.
    repeat split; [exact Hs|exact Ht|apply (polling_timeout port p Hp)| |right; split; [reflexivity|exact Hlate]].
    rewrite sleeps_app. destruct (probe_failed_quiet port p Hp) as (-> & _). cbn. lia.
  - pose proof (pass_Again_clock Hc _ _ _ _ _ Ep) as [Hadv _].
    apply pass_Again in Ep. destruct Ep as (Hs & p & Hp & Ht).
    destruct (IH s1) as (o & rest & s' & Hrun & Hself & Htr & Hpoll & Hsl & Hout).
    { change (milliseconds 500) with 500000000%Z in *. lia. }
    exists o, (p ++ EvSleepFor (milliseconds 500) :: rest), s'.
    repeat split.
    + exact Hrun.
    + rewrite Hself. exact Hs.
    + rewrite Htr, Ht. apply rev_snoc_app.
    + apply polling_retry; assumption.
    + rewrite sleeps_app. destruct (probe_failed_quiet port p Hp) as (-> & _).
      change (sleeps (EvSleepFor (milliseconds 500) :: rest)) with (S (sleeps rest)). lia.
    + exact Hout.
Qed.








End Loop.

(** ** Straight-line methods *)

(** Symbolic execution: unfold the monad and the methods, nothing else. *)
Ltac run :=
  cbv beta iota zeta delta
    [bind ret this assign query call call_ wcout wcerr out_of_fuel do_CreateProcessW
     CheckDependency StartProcess ShowErrorDialog GetExecutablePath
     VerifyInstallation StartFrontend WaitForExit Cleanup RDOLauncher_dtor
     RDOLauncher_ctor negb];
  cbn [self w trace load store final].

Ltac run_in H :=
  cbv beta iota zeta delta
    [bind ret this assign query call call_ wcout wcerr out_of_fuel do_CreateProcessW
     CheckDependency StartProcess ShowErrorDialog GetExecutablePath
     VerifyInstallation StartFrontend WaitForExit Cleanup RDOLauncher_dtor
     RDOLauncher_ctor negb] in H;
  cbn [self w trace load store final] in H.

(** The events [l] has on top of [t]. *)
Ltac events_above l t :=
  lazymatch l with
  | t => constr:(@nil Event)
  | ?e :: ?l' => let r := events_above l' t in constr:(e :: r)
  end.

(** Closes [Done a {| ...; trace := l |} = Done ?b {| ...; trace := ?evs ++ t |}]. *)
Ltac name_events :=
  lazymatch goal with
  | |- Done _ {| self := _; w := _; trace := ?l |} =
       Done _ {| self := _; w := _; trace := ?E ++ ?t |} =>
      let p := events_above l t in unify E p; reflexivity
  end.

(** Closes [l = ?evs ++ t]. *)
Ltac name_trace :=
  lazymatch goal with
  | |- ?l = ?E ++ ?t => let p := events_above l t in unify E p; reflexivity
  end.

Section Methods.

Context {os : OS}.

(** [VerifyInstallation] always returns, touches neither the members nor
    the world, and none of its events is a lifecycle event or the entry
    line of [StartFrontend]. *)
Lemma VerifyInstallation_effect (s : St os) :
  exists b evs,
    VerifyInstallation s = Done b {| self := self s; w := w s; trace := evs ++ trace s |} /\
    filter is_lifecycle evs = [] /\
    ~ In StartFrontend_entry evs.
Proof.
  run.
  repeat match goal with
         | |- context [PathFileExistsW os ?p (w s)] =>
             destruct (PathFileExistsW os p (w s)); run
         end.
  all: eexists; eexists; split; [name_events|].
  all: split; [reflexivity|].
  all: cbn; unfold StartFrontend_entry; intuition discriminate.
Qed.

(** C3.  Whatever subset of the four dependencies is on disk,
    [VerifyInstallation] returns true exactly when none is missing, and
    otherwise writes one error line, naming the first missing dependency in
    the fixed check order (interpreter, UI runtime, backend entry, frontend
    entry) and its path. *)
Theorem VerifyInstallation_first_missing (s : St os) :
  exists evs,
    VerifyInstallation s =
      Done (match missing s with [] => true | _ :: _ => false end)
           {| self := self s; w := w s; trace := evs ++ trace s |} /\
    wcerr_lines evs =
      match missing s with [] => [] | d :: _ => [missing_line d] end.
Proof.
  unfold missing, dependencies. cbn [filter fst]. run.
  unfold pythonPath_of, electronPath_of, backendPath_of, frontendPath_of.
  repeat match goal with
         | |- context [PathFileExistsW os ?p (w s)] =>
             destruct (PathFileExistsW os p (w s)); run
         end.
  all: eexists; split; [name_events|reflexivity].
Qed.

(** The command line is the quoted executable, a space, the arguments. *)
Lemma string_app_assoc (a b c : string) : ((a ++ b) ++ c = a ++ b ++ c)%string.
Proof. induction a as [|x a IH]; cbn; [reflexivity|now rewrite IH]. Qed.

Lemma command_line_quoted executable arguments :
  command_line executable arguments = (quoted executable ++ " " ++ arguments)%string.
Proof.
  unfold command_line, quoted. rewrite !string_app_assoc. reflexivity.
Qed.

Lemma StartFrontend_effect (s : St os) :
  StartFrontend s =
  match frontend_spawn s with
  | (true, pi, w') =>
      Done true
        {| self := store ref_frontendProcess pi (self s); w := w';
           trace := EvCreateProcessW (frontend_cmdLine (self s)) CREATE_NEW_CONSOLE
                      (installPath (self s)) (startupInfo_for true) true pi ::
                    StartFrontend_entry :: trace s |}
  | (false, pi, w') =>
      Done false
        (dialog_shown frontend_failure_message
           {| self := store ref_frontendProcess pi (self s); w := w';
              trace := EvWcerr ("Failed to start process: " ++
                                electronPath_of (installPath (self s)) ++
                                " (Error: " ++ decimal (GetLastError os w') ++ ")") ::
                       EvGetLastError (GetLastError os w') ::
                       EvCreateProcessW (frontend_cmdLine (self s)) CREATE_NEW_CONSOLE
                         (installPath (self s)) (startupInfo_for true) false pi ::
                       StartFrontend_entry :: trace s |})
  end.
Proof.
  unfold frontend_spawn, frontend_cmdLine, command_line, startupInfo_for, quoted,
    electronPath_of, appPath_of, dialog_shown, StartFrontend_entry.
  run.
  destruct (CreateProcessW os _ _ _ _ _ (w s)) as [[[|] pi] w']; run; reflexivity.
Qed.

Lemma StartBackend_effect fuel (s : St os) :
  StartBackend fuel s =
  match backend_spawn s with
  | (true, pi, w') =>
      match WaitForPort fuel 5000 30
              {| self := store ref_backendProcess pi (self s); w := w';
                 trace := EvCreateProcessW (backend_cmdLine (self s)) CREATE_NEW_CONSOLE
                            (installPath (self s)) (startupInfo_for (debugMode (self s)))
                            true pi ::
                          EvWcout "Starting backend..." :: trace s |}
      with
      | Done _ s' => Done true s'
      | OutOfFuel s' => OutOfFuel s'
      end
  | (false, pi, w') =>
      Done false
        (dialog_shown backend_failure_message
           {| self := store ref_backendProcess pi (self s); w := w';
              trace := EvWcerr ("Failed to start process: " ++
                                pythonPath_of (installPath (self s)) ++
                                " (Error: " ++ decimal (GetLastError os w') ++ ")") ::
                       EvGetLastError (GetLastError os w') ::
                       EvCreateProcessW (backend_cmdLine (self s)) CREATE_NEW_CONSOLE
                         (installPath (self s)) (startupInfo_for (debugMode (self s)))
                         false pi ::
                       EvWcout "Starting backend..." :: trace s |})
  end.
Proof.
  unfold backend_spawn, backend_cmdLine, command_line, quoted,
    pythonPath_of, backendPath_of, dialog_shown, StartBackend.
  run.
  assert (Hsi : (if debugMode (self s) then STARTUPINFOW_zero
                 else {| dwFlags := STARTF_USESHOWWINDOW; wShowWindow := SW_HIDE |}) =
                startupInfo_for (debugMode (self s))) by reflexivity.
  destruct (debugMode (self s));
    (destruct (CreateProcessW os _ _ _ _ _ (w s)) as [[[|] pi] w']; run; reflexivity).
Qed.

Lemma Cleanup_effect (s : St os) :
  exists w',
    Cleanup s = Done tt {| self := self s; w := w';
                           trace := rev (Cleanup_calls (self s)) ++ trace s |}.
Proof.
  destruct s as [l x t]. run. unfold Cleanup_calls.
  destruct (nonnull (hProcess (backendProcess l))); run;
    destruct (nonnull (hProcess (frontendProcess l))); run;
    eexists; reflexivity.
Qed.

Lemma Cleanup_nothing_to_do (s : St os) :
  hProcess (backendProcess (self s)) = NULL ->
  hProcess (frontendProcess (self s)) = NULL ->
  Cleanup s = Done tt s.
Proof.
  destruct s as [l x t]. cbn [self]. intros Hb Hf.
  run. rewrite Hb. cbn. rewrite Hf. reflexivity.
Qed.

(** C10.  With a null frontend process handle [WaitForExit] returns at
    once: the state is the one it was called in, no wait is issued. *)
Theorem WaitForExit_without_frontend (s : St os) :
  hProcess (frontendProcess (self s)) = NULL ->
  WaitForExit s = Done tt s.
Proof.
  intros Hf. run. rewrite Hf. reflexivity.
Qed.

(** C7, as amended.  [StartFrontend] makes one spawn request: the quoted
    UI-runtime binary followed by the quoted path of the [app] directory
    under the install root, with the install root as working directory and
    a startup information that does not hide the window. *)
Theorem StartFrontend_request (s : St os) :
  exists ok s' evs,
    StartFrontend s = Done ok s' /\
    trace s' = evs ++ trace s /\
    spawn_requests evs =
      [ ((quoted (electronPath_of (installPath (self s))) ++ " " ++
          quoted (appPath_of (installPath (self s))))%string,
         installPath (self s),
         STARTUPINFOW_zero) ] /\
    hidden STARTUPINFOW_zero = false.
Proof.
  rewrite StartFrontend_effect. unfold frontend_cmdLine, dialog_shown.
  rewrite command_line_quoted.
  destruct (frontend_spawn s) as [[[|] pi] w'];
    (eexists; eexists; eexists; split; [reflexivity|]);
    cbn [self w trace]; (split; [name_trace|]); split; reflexivity.
Qed.

(** C6, as amended.  [Cleanup] always returns and never changes the
    members, so the members after two invocations are those after one; one
    invocation issues the calls of [Cleanup_calls] and no others: it
    terminates the backend and closes the two handles of each child whose
    process handle is set; with no handle set it does nothing at all, once
    or twice. *)
Theorem Cleanup_twice (s : St os) :
  exists s1 s2,
    Cleanup s = Done tt s1 /\ Cleanup s1 = Done tt s2 /\
    self s1 = self s /\ self s2 = self s /\
    trace s1 = rev (Cleanup_calls (self s)) ++ trace s /\
    (hProcess (backendProcess (self s)) = NULL ->
     hProcess (frontendProcess (self s)) = NULL ->
     s1 = s /\ s2 = s).
Proof.
  destruct (Cleanup_effect s) as [w1 H1].
  destruct (Cleanup_effect {| self := self s; w := w1;
                              trace := rev (Cleanup_calls (self s)) ++ trace s |})
    as [w2 H2].
  eexists; eexists. split; [exact H1|]. split; [exact H2|].
  do 3 (split; [reflexivity|]).
  intros Hb Hf.
  pose proof (Cleanup_nothing_to_do s Hb Hf) as E.
  rewrite E in H1. injection H1 as H1.
  rewrite <- H1 in H2. rewrite E in H2. injection H2 as H2.
  split; [symmetry; exact H1|].
  rewrite <- H1. symmetry; exact H2.
Qed.

End Methods.

Section Orchestration.

Context {os : OS}.

(** Under the clock laws [WaitForPort] returns, with any fuel from
    [2 * max 0 timeoutSeconds + 2] on; when it returns on the timeout, more
    than [timeoutSeconds] have gone by since it started. *)
Lemma WaitForPort_total (Hc : clock_laws os) port timeoutSeconds (s : St os) :
  exists o evs s',
    (forall fuel,
        (Z.to_nat (2 * Z.max 0 timeoutSeconds) + 2 <= fuel)%nat ->
        WaitForPort fuel port timeoutSeconds s = Done tt s') /\
    self s' = self s /\
    trace s' = rev evs ++
               EvWcout ("Waiting for backend on port " ++ decimal port ++ "...") :: trace s /\
    polling port o evs /\
    (sleeps evs <= Z.to_nat (2 * Z.max 0 timeoutSeconds) + 1)%nat /\
    (o = Ready \/
     o = TimedOut /\
     (steady_clock_now os (w s') - steady_clock_now os (w s) > seconds timeoutSeconds)%Z).
Proof.
  set (k := (Z.to_nat (2 * Z.max 0 timeoutSeconds) + 1)%nat).
  set (s0 := {| self := self s; w := w s;
                trace := EvWcout ("Waiting for backend on port " ++ decimal port ++ "...")
                         :: trace s |}).
  destruct (WaitForPort_loop_returns Hc port (steady_clock_now os (w s))
              (seconds timeoutSeconds) k s0)
    as (o & evs & s' & Hrun & Hself & Htr & Hpoll & Hsl & Hout).
  { subst k s0. cbn [w]. rewrite Nat2Z.inj_add, Z2Nat.id by lia.
    unfold seconds, milliseconds. lia. }
  exists o, evs, s'. repeat split; try assumption.
  intros fuel Hfuel. unfold WaitForPort. run. fold s0.
  apply (WaitForPort_loop_fuel port _ _ (S k)); [exact Hrun|subst k; lia].
Qed.


(** [WaitForPort] with any fuel, on any system: shape of the events. *)
Lemma WaitForPort_shape fuel port timeoutSeconds (s : St os) :
  exists o evs,
    polling port o evs /\
    trace (final (WaitForPort fuel port timeoutSeconds s)) =
      rev evs ++ EvWcout ("Waiting for backend on port " ++ decimal port ++ "...")
              :: trace s /\
    self (final (WaitForPort fuel port timeoutSeconds s)) = self s /\
    match WaitForPort fuel port timeoutSeconds s with
    | Done _ _ => o = Ready \/ o = TimedOut
    | OutOfFuel _ => o = Unfinished
    end.
Proof.
  unfold WaitForPort. run.
  apply (WaitForPort_loop_shape port (steady_clock_now os (w s)) (seconds timeoutSeconds) fuel
           {| self := self s; w := w s;
              trace := EvWcout ("Waiting for backend on port " ++ decimal port ++ "...")
                       :: trace s |}).
Qed.

(** C4.  Under the clock laws and with fuel for the 30 s of [WaitForPort],
    [StartBackend] returns, and it returns what [CreateProcessW] answered
    to the backend's spawn: false, after the error dialog, exactly when the
    spawn failed; true in every other case, whether the polling ended on a
    connect or on the timeout with no connect having succeeded. *)
Theorem StartBackend_false_iff_spawn_failed (Hc : clock_laws os) fuel (s : St os) :
  (62 <= fuel)%nat ->
  exists b s',
    StartBackend fuel s = Done b s' /\
    b = spawn_ok (backend_spawn s) /\
    (b = false -> exists s0, s' = dialog_shown backend_failure_message s0) /\
    (b = true ->
     exists o evs,
       polling 5000 o evs /\
       (o = Ready \/ o = TimedOut /\ existsb connected evs = false) /\
       trace s' =
         rev evs ++
         EvWcout "Waiting for backend on port 5000..." ::
         EvCreateProcessW (backend_cmdLine (self s)) CREATE_NEW_CONSOLE (installPath (self s))
           (startupInfo_for (debugMode (self s))) true (spawn_info (backend_spawn s)) ::
         EvWcout "Starting backend..." :: trace s).
Proof.
  intros Hfuel. rewrite StartBackend_effect. unfold spawn_ok, spawn_info.
  destruct (backend_spawn s) as [[[|] pi] w']; cbn [fst snd].
  - match goal with
    | |- context [WaitForPort fuel 5000 30 ?s1] =>
        destruct (WaitForPort_total Hc 5000 30 s1)
          as (o & evs & s' & Hrun & _ & Htr & Hpoll & _ & Hout)
    end.
    rewrite (Hrun fuel) by exact Hfuel.
    exists true, s'. repeat split; [discriminate|].
    intros _. exists o, evs. repeat split; [exact Hpoll| |exact Htr].
    destruct Hout as [->|(-> & _)]; [left; reflexivity|right; split; [reflexivity|]].
    apply (polling_facts 5000 TimedOut evs Hpoll). discriminate.
  - exists false. eexists. repeat split; [|discriminate].
    intros _. eexists. reflexivity.
Qed.

(** Without the clock laws: if [StartBackend] returns, it returns what the
    spawn answered. *)
Lemma StartBackend_result fuel (s : St os) b s' :
  StartBackend fuel s = Done b s' -> b = spawn_ok (backend_spawn s).
Proof.
  rewrite StartBackend_effect. unfold spawn_ok.
  destruct (backend_spawn s) as [[[|] pi] w']; cbn [fst].
  - destruct (WaitForPort fuel 5000 30 _); [intros [= <- _]; reflexivity|discriminate].
  - intros [= <- _]. reflexivity.
Qed.

Lemma WaitForExit_total (s : St os) : exists s', WaitForExit s = Done tt s'.
Proof.
  run. destruct (nonnull _); eexists; reflexivity.
Qed.

(** [Run], step by step. *)
Lemma Run_unfold fuel (s : St os) :
  Run fuel s =
  match VerifyInstallation s with
  | Done false s1 => Done 1%Z (dialog_shown installation_failure_message s1)
  | Done true s1 =>
      match StartBackend fuel s1 with
      | Done false s2 => Done 2%Z s2
      | Done true s2 =>
          match StartFrontend (one_second_later s2) with
          | Done false s3 => Done 3%Z s3
          | Done true s3 =>
              match WaitForExit s3 with
              | Done _ s4 => Done 0%Z s4
              | OutOfFuel s4 => OutOfFuel s4
              end
          | OutOfFuel s3 => OutOfFuel s3
          end
      | OutOfFuel s2 => OutOfFuel s2
      end
  | OutOfFuel s1 => OutOfFuel s1
  end.
Proof.
  unfold Run, bind, one_second_later, dialog_shown.
  destruct (VerifyInstallation s) as [[|] s1|s1]; try reflexivity.
  cbv beta iota delta [negb].
  destruct (StartBackend fuel s1) as [[|] s2|s2]; try reflexivity.
  cbv beta iota delta [negb]. unfold call_ at 1.
  destruct (StartFrontend _) as [[|] s3|s3]; reflexivity.
Qed.




Lemma no_lifecycle_no_spawn (l : list Event) :
  filter is_lifecycle l = [] -> filter is_spawn l = [] /\ filter is_release l = [].
Proof.
  induction l as [|e l IH]; [split; reflexivity|].
  cbn [filter].
  destruct (is_lifecycle e) eqn:E; [discriminate|].
  intros H. destruct e; cbn in E; try discriminate; cbn; auto.
Qed.

(** C5.  When [VerifyInstallation] has passed and [CreateProcessW] refuses
    the backend, [Run] returns 2; the entry line of [StartFrontend] is not
    among the events of the run, and the only spawn request in them is the
    refused one of the backend. *)
Theorem backend_spawn_failure_exits_2 fuel (s s1 : St os) :
  VerifyInstallation s = Done true s1 ->
  spawn_ok (backend_spawn s1) = false ->
  exists s' evs,
    Run fuel s = Done 2%Z s' /\
    trace s' = evs ++ trace s /\
    ~ In StartFrontend_entry evs /\
    filter is_spawn evs =
      [EvCreateProcessW (backend_cmdLine (self s)) CREATE_NEW_CONSOLE (installPath (self s))
         (startupInfo_for (debugMode (self s))) false (spawn_info (backend_spawn s1))].
Proof.
  intros H1 Hfail.
  destruct (VerifyInstallation_effect s) as (b & evs1 & E1 & Hlife & Hentry).
  rewrite H1 in E1. injection E1 as <- ->.
  pose proof (StartBackend_effect fuel
                {| self := self s; w := w s; trace := evs1 ++ trace s |}) as E2.
  unfold spawn_ok, spawn_info in *.
  destruct (backend_spawn _) as [[[|] pi] w']; cbn [fst snd] in *; [discriminate|].
  eexists. eexists. split; [|split; [|split]].
  - rewrite Run_unfold, H1, E2. reflexivity.
  - unfold dialog_shown. cbn [self w trace].
    match goal with
    | |- ?a :: ?b :: ?c :: ?d :: ?e :: evs1 ++ trace s = _ =>
        instantiate (1 := [a; b; c; d; e] ++ evs1)
    end.
    rewrite <- app_assoc. reflexivity.
  - intros [H|[H|[H|[H|[H|H]]]]]; try discriminate H. exact (Hentry H).
  - rewrite filter_app. cbn.
    rewrite (proj1 (no_lifecycle_no_spawn evs1 Hlife)). reflexivity.
Qed.

End Orchestration.

(** ** Ownership of handles *)

Section Ownership.

Context {os : OS}.

Hypothesis keeps : CreateProcessW_keeps os.

Lemma nonnull_true h : nonnull h = true <-> h <> NULL.
Proof.
  unfold nonnull. rewrite negb_true_iff. apply Z.eqb_neq.
Qed.











(** A failed spawn leaves the members as they were. *)
Lemma StartBackend_failure_keeps fuel (s : St os) :
  spawn_ok (backend_spawn s) = false -> self (final (StartBackend fuel s)) = self s.
Proof.
  rewrite StartBackend_effect. unfold spawn_ok, backend_spawn.
  destruct (CreateProcessW os _ _ _ _ _ (w s)) as [[[|] pi] w'] eqn:E;
    cbn [fst]; [discriminate|]. intros _.
  apply keeps in E. subst pi. cbn.
  destruct (self s); reflexivity.
Qed.

Lemma StartFrontend_failure_keeps (s : St os) :
  spawn_ok (frontend_spawn s) = false -> self (final (StartFrontend s)) = self s.
Proof.
  rewrite StartFrontend_effect. unfold spawn_ok, frontend_spawn.
  destruct (CreateProcessW os _ _ _ _ _ (w s)) as [[[|] pi] w'] eqn:E;
    cbn [fst]; [discriminate|]. intros _.
  apply keeps in E. subst pi. cbn.
  destruct (self s); reflexivity.
Qed.








Lemma final_ignore {A} (m : M os A) (s : St os) : final (ignore m s) = final (m s).
Proof. unfold ignore. destruct (m s); reflexivity. Qed.


End Ownership.

(** ** The order of the lifecycle events *)

Section Lifecycle.

Context {os : OS}.

Hypothesis laws : CreateProcessW_laws os.

Lemma lifecycle_app (evs tr : list Event) :
  lifecycle (evs ++ tr) = lifecycle tr ++ lifecycle evs.
Proof. unfold lifecycle. rewrite filter_app. apply rev_app_distr. Qed.

Lemma lifecycle_rev (evs : list Event) : lifecycle (rev evs) = filter is_lifecycle evs.
Proof. unfold lifecycle. rewrite filter_rev. apply rev_involutive. Qed.

Lemma lifecycle_none (evs : list Event) : filter is_lifecycle evs = [] -> lifecycle evs = [].
Proof. unfold lifecycle. intros ->. reflexivity. Qed.

Lemma lifecycle_cons_yes (e : Event) (tr : list Event) :
  is_lifecycle e = true -> lifecycle (e :: tr) = lifecycle tr ++ [e].
Proof. unfold lifecycle. cbn [filter]. intros ->. reflexivity. Qed.

Lemma lifecycle_cons_no (e : Event) (tr : list Event) :
  is_lifecycle e = false -> lifecycle (e :: tr) = lifecycle tr.
Proof. unfold lifecycle. cbn [filter]. intros ->. reflexivity. Qed.

(** Pushes [lifecycle] through the events on top of a trace. *)
Ltac lifecycle_norm :=
  repeat first
    [ rewrite lifecycle_cons_no by reflexivity
    | rewrite lifecycle_cons_yes by reflexivity
    | rewrite lifecycle_app
    | rewrite lifecycle_rev ].

Ltac lifecycle_done :=
  rewrite <- ?app_assoc; cbn [app]; reflexivity.

Lemma store_same (r : ProcRef) (l : RDOLauncher) : store r (load r l) l = l.
Proof. destruct r, l; reflexivity. Qed.

Lemma Run_lifecycle_holds fuel (s : St os) :
  exists X,
    lifecycle (trace (final (Run fuel s))) = lifecycle (trace s) ++ X /\
    Run_lifecycle (self s) (exit_code (Run fuel s)) X (self (final (Run fuel s))).
Proof.
  remember (Run fuel s) as r eqn:Hr.
  destruct (VerifyInstallation_effect s) as (b1 & evs1 & E1 & L1 & _).
  apply lifecycle_none in L1.
  unfold Run, bind in Hr. rewrite E1 in Hr. destruct b1; cbv beta iota delta [negb] in Hr.
  2:{ exists []. run_in Hr. subst r. cbn [final exit_code self trace].
      split; [|constructor].
      lifecycle_norm. rewrite L1. reflexivity. }
  rewrite StartBackend_effect in Hr. unfold backend_spawn in Hr. cbn [self w trace] in Hr.
  destruct (CreateProcessW os _ _ _ _ _ (w s)) as [[[|] pb] w1] eqn:Eb.
  2:{ apply (CreateProcessW_failure os laws) in Eb. subst pb.
      unfold dialog_shown, ret in Hr. subst r.
      eexists. cbn [final exit_code self w trace]. split.
      - lifecycle_norm. rewrite L1. lifecycle_done.
      - rewrite (store_same ref_backendProcess). constructor. }
  apply (CreateProcessW_success os laws) in Eb.
  match type of Hr with
  | context [WaitForPort fuel 5000 30 ?s1] =>
      destruct (WaitForPort_shape fuel 5000 30 s1) as (o & evs & Hp & Ht & Hs & Ho);
      destruct (WaitForPort fuel 5000 30 s1) as [[] s2|s2]
  end; cbn [final self trace] in Ht, Hs.
  2:{ subst o r. eexists. cbn [final exit_code]. rewrite Ht, Hs. split.
      - lifecycle_norm. rewrite (proj1 (polling_facts _ _ _ Hp)), L1. lifecycle_done.
      - apply run_polling. exact Eb. }
  assert (Hm : exists m, port_wait_over m /\ filter is_lifecycle evs = [m]).
  { destruct (polling_facts _ _ _ Hp) as (Hf & _).
    destruct Ho as [->| ->]; eexists; (split; [|exact Hf]); [left|right]; reflexivity. }
  destruct Hm as (m & Hm & Hf).
  unfold call_ at 1 in Hr. cbv beta iota in Hr.
  rewrite StartFrontend_effect in Hr. unfold frontend_spawn in Hr.
  cbn [self w trace] in Hr. rewrite Hs in Hr.
  change (frontend_cmdLine (store ref_backendProcess pb (self s)))
    with (frontend_cmdLine (self s)) in Hr.
  cbn [self w trace store installPath frontendProcess debugMode] in Hr.
  destruct (CreateProcessW os _ _ _ _ _ _) as [[[|] pf] w3] eqn:Ef.
  - apply (CreateProcessW_success os laws) in Ef.
    run_in Hr. cbn [frontendProcess] in Hr. rewrite (proj2 (nonnull_true _) Ef) in Hr.
    subst r. eexists. cbn [final exit_code self trace]. rewrite Ht. split.
    + lifecycle_norm. rewrite Hf, L1. lifecycle_done.
    + match goal with
      | |- Run_lifecycle _ _ _ ?l' =>
          change l' with
            (store ref_frontendProcess pf (store ref_backendProcess pb (self s)))
      end.
      apply run_complete; assumption.
  - apply (CreateProcessW_failure os laws) in Ef. subst pf.
    unfold dialog_shown, ret in Hr. subst r.
    eexists. cbn [final exit_code self w trace]. rewrite Ht. split.
    + lifecycle_norm. rewrite Hf, L1. lifecycle_done.
    + match goal with
      | |- Run_lifecycle _ _ _ ?l' =>
          replace l' with (store ref_backendProcess pb (self s))
            by (destruct (self s); reflexivity)
      end.
      apply run_no_frontend; assumption.
Qed.

Lemma ctor_effect (w0 : world os) :
  exists s0,
    RDOLauncher_ctor (boot w0) = Done tt s0 /\
    backendProcess (self s0) = PROCESS_INFORMATION_zero /\
    frontendProcess (self s0) = PROCESS_INFORMATION_zero /\
    lifecycle (trace s0) = [].
Proof.
  unfold boot. run.
  match goal with
  | |- context [PathFileExistsW os ?p ?x] => destruct (PathFileExistsW os p x)
  end; run; eexists; repeat split.
Qed.

Lemma Cleanup_calls_lifecycle (l : RDOLauncher) :
  filter is_lifecycle (Cleanup_calls l) = Cleanup_calls l.
Proof.
  unfold Cleanup_calls.
  destruct (nonnull (hProcess (backendProcess l)));
    destruct (nonnull (hProcess (frontendProcess l))); reflexivity.
Qed.

Lemma dtor_effect (s : St os) :
  exists s',
    RDOLauncher_dtor s = Done tt s' /\
    lifecycle (trace s') = lifecycle (trace s) ++ Cleanup_calls (self s).
Proof.
  unfold RDOLauncher_dtor, bind.
  destruct (Cleanup_effect s) as [w1 E]. rewrite E. run.
  destruct (debugMode (self s)); run; eexists; (split; [reflexivity|]);
    cbn [trace]; lifecycle_norm; rewrite Cleanup_calls_lifecycle; reflexivity.
Qed.

(** C2, as amended.  Under the laws of [CreateProcessW], the lifecycle
    events of a run of [WinMain], complete or still polling, are in one of
    the five orders of [lifecycle_of].  So the frontend is spawned only
    after the backend was spawned successfully and [WaitForPort] has
    returned, on a connect or on its timeout; and the backend is terminated
    only by the destructor, after the wait for the frontend process has
    returned or after the frontend's spawn has failed. *)
Theorem WinMain_lifecycle fuel (w0 : world os) :
  lifecycle_of (self (final (RDOLauncher_ctor (boot w0))))
    (exit_code (WinMain fuel (boot w0)))
    (lifecycle (trace (final (WinMain fuel (boot w0))))).
Proof.
  remember (WinMain fuel (boot w0)) as r eqn:Hr.
  destruct (ctor_effect w0) as (s0 & E0 & Hb & Hf & L0).
  unfold WinMain, bind in Hr. rewrite E0 in *. cbn [final].
  destruct (Run_lifecycle_holds fuel s0) as (X & HX & HR). rewrite L0 in HX. cbn [app] in HX.
  destruct (Run fuel s0) as [code s1|s1]; cbn [final exit_code] in *.
  - destruct (dtor_effect s1) as (s2 & E2 & L2). rewrite E2 in Hr.
    unfold ret in Hr. subst r. cbn [final exit_code]. rewrite L2, HX.
    unfold Cleanup_calls.
    inversion HR as [H1 H2 H3|H1 H2 H3| |pb m Hpb Hm H1 H2 H3|pb m pf Hpb Hpf Hm H1 H2 H3];
      try subst X; cbn [store backendProcess frontendProcess];
      rewrite ?Hb, ?Hf;
      rewrite ?(proj2 (nonnull_true _) Hpb), ?(proj2 (nonnull_true _) Hpf);
      cbn [nonnull PROCESS_INFORMATION_zero hProcess NULL Z.eqb negb app].
    + apply life_not_installed.
    + apply life_no_backend.
    + apply life_no_frontend; assumption.
    + apply life_complete; assumption.
  - subst r. cbn [final exit_code]. rewrite HX.
    inversion HR as [| |pb Hpb H1 H2 H3| |]. apply life_polling. exact Hpb.
Qed.

End Lifecycle.

(** ** The simulated system obeys the laws *)

Lemma Sim_clock_laws (c : Sim.Config) : clock_laws (Sim.os c).
Proof.
  constructor; cbn; intros.
  - lia.
  - unfold Sim.dial. cbn. unfold milliseconds. lia.
  - lia.
  - lia.
Qed.

Lemma Sim_CreateProcessW_laws (c : Sim.Config) : CreateProcessW_laws (Sim.os c).
Proof.
  constructor; unfold CreateProcessW_keeps, CreateProcessW_fills; cbn;
    unfold Sim.create; intros cmd _ _ _ pi x pi' w';
    destruct (Sim.mem cmd (Sim.refused c)); intros [= <- _]; try reflexivity.
  cbn. discriminate.
Qed.

(** ** The theorems at work on the simulated system *)

Lemma WaitForExit_without_frontend_witness :
  hProcess (frontendProcess (self (Sim.constructed Sim.healthy))) = NULL /\
  WaitForExit (Sim.constructed Sim.healthy) = Done tt (Sim.constructed Sim.healthy).
Proof.
  split; [reflexivity|].
  apply WaitForExit_without_frontend. reflexivity.
Defined.


Lemma StartBackend_false_iff_spawn_failed_witness :
  clock_laws (Sim.os Sim.deaf) /\ (62 <= 62)%nat /\
  exists s', StartBackend 62 (Sim.constructed Sim.deaf) = Done true s'.
Proof.
  split; [apply Sim_clock_laws|]. split; [lia|].
  destruct (StartBackend_false_iff_spawn_failed (Sim_clock_laws Sim.deaf) 62
              (Sim.constructed Sim.deaf) (le_n 62))
    as (b & s' & Hrun & Hb & _).
  exists s'. rewrite Hrun, Hb. reflexivity.
Defined.


Lemma backend_spawn_failure_exits_2_witness :
  exists s' evs,
    Run 5 (Sim.constructed Sim.no_backend) = Done 2%Z s' /\
    trace s' = evs ++ trace (Sim.constructed Sim.no_backend) /\
    ~ In StartFrontend_entry evs.
Proof.
  assert (H1 : VerifyInstallation (Sim.constructed Sim.no_backend) =
               Done true (final (VerifyInstallation (Sim.constructed Sim.no_backend))))
    by (vm_compute; reflexivity).
  assert (H2 : spawn_ok (backend_spawn
                           (final (VerifyInstallation (Sim.constructed Sim.no_backend)))) =
               false)
    by (vm_compute; reflexivity).
  destruct (backend_spawn_failure_exits_2 5 _ _ H1 H2)
    as (s' & evs & Hrun & Htr & Hentry & _).
  exists s', evs. repeat split; assumption.
Defined.

Lemma Cleanup_twice_witness :
  exists s1 s2,
    Cleanup (Sim.constructed Sim.healthy) = Done tt s1 /\ Cleanup s1 = Done tt s2 /\
    s1 = Sim.constructed Sim.healthy /\ s2 = Sim.constructed Sim.healthy.
Proof.
  destruct (Cleanup_twice (Sim.constructed Sim.healthy))
    as (s1 & s2 & H1 & H2 & _ & _ & _ & Hnull).
  exists s1, s2. repeat split; try assumption; apply (Hnull eq_refl eq_refl).
Defined.

Lemma WinMain_lifecycle_witness :
  CreateProcessW_laws (Sim.os Sim.healthy) /\
  lifecycle_of (self (Sim.constructed Sim.healthy))
    (exit_code (WinMain 5 (boot (os := Sim.os Sim.healthy) Sim.start)))
    (lifecycle (trace (final (WinMain 5 (boot (os := Sim.os Sim.healthy) Sim.start))))).
Proof.
  split; [apply Sim_CreateProcessW_laws|].
  apply (WinMain_lifecycle (Sim_CreateProcessW_laws Sim.healthy) 5 Sim.start).
Defined.

(** ** Where the specification and the launcher part *)

(** C2 as stated fails twice.  On the system whose backend never listens
    no connect ever succeeds, and the frontend is spawned all the same; on
    the system that refuses the frontend the backend is terminated although
    no frontend process was ever waited for. *)
Lemma frontend_without_ready_backend :
  (existsb connected
     (trace (final (WinMain 62 (boot (os := Sim.os Sim.deaf) Sim.start)))) = false /\
   existsb (frontend_spawned (self (Sim.constructed Sim.deaf)))
     (trace (final (WinMain 62 (boot (os := Sim.os Sim.deaf) Sim.start)))) = true) /\
  (existsb (terminates 100)
     (trace (final (WinMain 5 (boot (os := Sim.os Sim.no_frontend) Sim.start)))) = true /\
   existsb is_wait
     (trace (final (WinMain 5 (boot (os := Sim.os Sim.no_frontend) Sim.start)))) = false).
Proof.
  split; split; vm_compute; reflexivity.
Qed.

(** C6 as stated fails on a launcher whose children were spawned:
    [Cleanup] does not clear the handles, so the second invocation
    terminates the backend again and closes its process handle again, and
    the state after two invocations is not the state after one. *)
Lemma Cleanup_twice_releases_again :
  List.length (filter (terminates 100)
                 (trace (final (bind Cleanup (fun _ => Cleanup) Sim.ran)))) = 2%nat /\
  List.length (filter (closes 100)
                 (trace (final (bind Cleanup (fun _ => Cleanup) Sim.ran)))) = 2%nat /\
  List.length (filter (closes 100) (trace (final (Cleanup Sim.ran)))) = 1%nat /\
  final (bind Cleanup (fun _ => Cleanup) Sim.ran) <> final (Cleanup Sim.ran).
Proof.
  split; [vm_compute; reflexivity|].
  split; [vm_compute; reflexivity|].
  split; [vm_compute; reflexivity|].
  intros H.
  apply (f_equal (fun s => List.length (trace s))) in H.
  vm_compute in H. discriminate H.
Qed.

(** C7 as stated fails: the argument is the [app] directory under the
    install root, not the install root. *)
Lemma StartFrontend_argument_is_app_directory :
  spawn_requests (trace (final (StartFrontend (Sim.constructed Sim.healthy)))) =
    [ ((quoted "C:\RDO\electron\electron.exe" ++ " " ++ quoted "C:\RDO\app")%string,
       "C:\RDO"%string, STARTUPINFOW_zero) ] /\
  (quoted "C:\RDO\electron\electron.exe" ++ " " ++ quoted "C:\RDO\app")%string <>
    frontend_cmdLine_install_root (self (Sim.constructed Sim.healthy)).
Proof.
  split; [vm_compute; reflexivity|].
  vm_compute. discriminate.
Qed.

(** [StartBackend] on the system whose backend never listens: it returns
    true after the timeout line. *)
Example StartBackend_after_timeout :
  exists s',
    StartBackend 62 (Sim.constructed Sim.deaf) = Done true s' /\
    hd_error (trace s') = Some (EvWcerr "Timeout waiting for backend").
Proof.
  eexists. split; vm_compute; reflexivity.
Qed.

(** The port of the probe: 5000 in network byte order. *)
Example htons_5000 : htons 5000 = 34835%Z.
Proof. reflexivity. Qed.

(** * Further properties of the launcher *)

Section Kinds.

Context {os : OS}.

Lemma filter_none {A} (P Q : A -> bool) (l : list A) :
  Forall (fun x => P x = true) l ->
  (forall x, P x = true -> Q x = false) ->
  filter Q l = [].
Proof.
  intros H HPQ. induction H as [|x l Hx _ IH]; [reflexivity|].
  cbn. rewrite (HPQ x Hx). exact IH.
Qed.

Lemma flat_map_none {A B} (P : A -> bool) (g : A -> list B) (l : list A) :
  Forall (fun x => P x = true) l ->
  (forall x, P x = true -> g x = []) ->
  flat_map g l = [].
Proof.
  intros H HPg. induction H as [|x l Hx _ IH]; [reflexivity|].
  cbn. rewrite (HPg x Hx). exact IH.
Qed.

Lemma view_app f (evs tr : list Event) : view f (evs ++ tr) = view f tr ++ view f evs.
Proof. unfold view. rewrite filter_app. apply rev_app_distr. Qed.

Lemma view_rev f (evs : list Event) : view f (rev evs) = filter f evs.
Proof. unfold view. rewrite filter_rev. apply rev_involutive. Qed.

Lemma view_cons f (e : Event) (tr : list Event) :
  view f (e :: tr) = view f tr ++ (if f e then [e] else []).
Proof. unfold view. cbn [filter]. destruct (f e); cbn; [reflexivity|]. now rewrite app_nil_r. Qed.

Lemma view_none f (evs : list Event) : filter f evs = [] -> view f evs = [].
Proof. unfold view. intros ->. reflexivity. Qed.

Lemma probe_failed_kinds port p :
  probe_failed port p -> Forall (fun e => is_poll e = true) p.
Proof. intros [|sk r Hr]; repeat constructor. Qed.

Lemma polling_kinds port o evs :
  polling port o evs -> Forall (fun e => is_poll e = true) evs.
Proof.
  induction 1 as [sk|p Hp| |p o rest Hp Hrest IH].
  - repeat constructor.
  - apply Forall_app. split; [exact (probe_failed_kinds port p Hp)|repeat constructor].
  - constructor.
  - apply Forall_app. split; [exact (probe_failed_kinds port p Hp)|].
    constructor; [reflexivity|exact IH].
Qed.

Lemma is_poll_plain (e : Event) :
  is_poll e = true ->
  is_release e = false /\ is_setup e = false /\ is_dialog e = false /\ is_spawn e = false.
Proof. destruct e; cbn; intros H; try discriminate H; repeat split. Qed.

Lemma is_verify_plain (e : Event) :
  is_verify e = true ->
  is_release e = false /\ is_setup e = false /\ is_dialog e = false /\ is_spawn e = false.
Proof. destruct e; cbn; intros H; try discriminate H; repeat split. Qed.

(** The events of [VerifyInstallation]: log lines and file queries. *)
Lemma VerifyInstallation_kinds (s : St os) :
  exists b evs,
    VerifyInstallation s = Done b {| self := self s; w := w s; trace := evs ++ trace s |} /\
    Forall (fun e => is_verify e = true) evs.
Proof.
  run.
  repeat match goal with
         | |- context [PathFileExistsW os ?p (w s)] =>
             destruct (PathFileExistsW os p (w s)); run
         end.
  all: eexists; eexists; split; [name_events|].
  all: repeat constructor.
Qed.

End Kinds.

Section Runs.

Context {os : OS}.

Lemma runs_refl (s : St os) : runs s s.
Proof. exists []. repeat split. Qed.

Lemma runs_trans (s s1 s2 : St os) : runs s s1 -> runs s1 s2 -> runs s s2.
Proof.
  intros (e1 & T1 & R1 & U1 & I1 & D1) (e2 & T2 & R2 & U2 & I2 & D2).
  exists (e2 ++ e1). repeat split.
  - rewrite T2, T1. apply app_assoc.
  - rewrite filter_app, R1, R2. reflexivity.
  - rewrite filter_app, U1, U2. reflexivity.
  - congruence.
  - congruence.
Qed.

Lemma runs_bind {A B} (m : M os A) (k : A -> M os B) (s : St os) :
  runs s (final (m s)) ->
  (forall a s1, m s = Done a s1 -> runs s1 (final (k a s1))) ->
  runs s (final (bind m k s)).
Proof.
  unfold bind. intros Hm Hk.
  destruct (m s) as [a s1|s1]; cbn [final] in *; [|exact Hm].
  eapply runs_trans; [exact Hm|]. apply Hk. reflexivity.
Qed.

Lemma VerifyInstallation_runs (s : St os) : runs s (final (VerifyInstallation s)).
Proof.
  destruct (VerifyInstallation_kinds s) as (b & evs & E & K). rewrite E.
  exists evs. cbn [final self trace]. repeat split.
  - apply (filter_none is_verify); [exact K|]. intros e He. apply (is_verify_plain e He).
  - apply (filter_none is_verify); [exact K|]. intros e He. apply (is_verify_plain e He).
Qed.

Lemma WaitForPort_runs fuel port timeoutSeconds (s : St os) :
  runs s (final (WaitForPort fuel port timeoutSeconds s)).
Proof.
  destruct (WaitForPort_shape fuel port timeoutSeconds s) as (o & evs & Hp & Ht & Hs & _).
  apply polling_kinds in Hp.
  exists (rev evs ++ [EvWcout ("Waiting for backend on port " ++ decimal port ++ "...")]).
  rewrite Hs. repeat split.
  - rewrite Ht, <- app_assoc. reflexivity.
  - rewrite filter_app, filter_rev.
    rewrite (filter_none is_poll is_release evs Hp); [reflexivity|].
    intros e He. apply (is_poll_plain e He).
  - rewrite filter_app, filter_rev.
    rewrite (filter_none is_poll is_setup evs Hp); [reflexivity|].
    intros e He. apply (is_poll_plain e He).
Qed.

Lemma StartFrontend_runs (s : St os) : runs s (final (StartFrontend s)).
Proof.
  rewrite StartFrontend_effect.
  destruct (frontend_spawn s) as [[[|] pi] w']; unfold dialog_shown; cbn [final];
    eexists; cbn [self w trace]; (split; [name_trace|]); repeat split.
Qed.

Lemma StartBackend_runs fuel (s : St os) : runs s (final (StartBackend fuel s)).
Proof.
  rewrite StartBackend_effect.
  destruct (backend_spawn s) as [[[|] pi] w'].
  - match goal with
    | |- context [WaitForPort fuel 5000 30 ?s1] =>
        pose proof (WaitForPort_runs fuel 5000 30 s1) as G;
        destruct (WaitForPort fuel 5000 30 s1) as [[] s2|s2]; cbn [final] in *;
        (eapply runs_trans; [|exact G])
    end.
    all: eexists; cbn [self w trace]; (split; [name_trace|]); repeat split.
  - unfold dialog_shown; cbn [final].
    eexists; cbn [self w trace]; (split; [name_trace|]); repeat split.
Qed.

Lemma WaitForExit_runs (s : St os) : runs s (final (WaitForExit s)).
Proof.
  run. destruct (nonnull _); cbn [final]; [|apply runs_refl].
  eexists; cbn [self w trace]; (split; [name_trace|]); repeat split.
Qed.

Lemma Run_runs fuel (s : St os) : runs s (final (Run fuel s)).
Proof.
  unfold Run.
  apply runs_bind; [apply VerifyInstallation_runs|]. intros [|] s1 _; cbv [negb].
  - apply runs_bind; [apply StartBackend_runs|]. intros [|] s2 _; cbv [negb].
    + apply runs_bind.
      { eexists; cbn; (split; [name_trace|]); repeat split. }
      intros [] s3 _.
      apply runs_bind; [apply StartFrontend_runs|]. intros [|] s4 _; cbv [negb].
      * apply runs_bind; [apply WaitForExit_runs|]. intros. apply runs_refl.
      * apply runs_refl.
    + apply runs_refl.
  - apply runs_bind; [|intros; apply runs_refl].
    eexists; cbn; (split; [name_trace|]); repeat split.
Qed.

(** The constructor, in full. *)
Lemma ctor_run (w0 : world os) :
  RDOLauncher_ctor (boot w0) =
  let w1 := WSAStartup os (MAKEWORD 2 2) w0 in
  let dir := PathRemoveFileSpecW os (GetModuleFileNameW os w1) in
  let debug := PathFileExistsW os (dir ++ "\debug.txt") w1 in
  Done tt
    {| self := {| installPath := dir;
                  backendProcess := PROCESS_INFORMATION_zero;
                  frontendProcess := PROCESS_INFORMATION_zero;
                  debugMode := debug |};
       w := if debug
            then freopen_s os "stderr" (freopen_s os "stdout" (AllocConsole os w1))
            else w1;
       trace := (if debug
                 then [EvFreopen "stderr"; EvFreopen "stdout"; EvAllocConsole]
                 else []) ++
                [EvPathFileExistsW (dir ++ "\debug.txt") debug;
                 EvGetModuleFileNameW (GetModuleFileNameW os w1);
                 EvWSAStartup (MAKEWORD 2 2)] |}.
Proof.
  unfold boot, RDOLauncher_init. run. cbv zeta.
  cbn [installPath backendProcess frontendProcess debugMode].
  match goal with
  | |- context [PathFileExistsW os ?p ?x] => destruct (PathFileExistsW os p x)
  end; reflexivity.
Qed.

(** The destructor: it returns, keeps the members, and after [Cleanup]
    tears down Winsock and, in debug mode, the console. *)
Lemma dtor_run (s : St os) :
  exists s',
    RDOLauncher_dtor s = Done tt s' /\
    self s' = self s /\
    view is_setup (trace s') =
      view is_setup (trace s) ++
      EvWSACleanup :: (if debugMode (self s) then [EvFreeConsole] else []).
Proof.
  unfold RDOLauncher_dtor, bind.
  destruct (Cleanup_effect s) as [w1 E]. rewrite E. run.
  assert (Hc : view is_setup (rev (Cleanup_calls (self s))) = []).
  { rewrite view_rev. unfold Cleanup_calls.
    destruct (nonnull _); destruct (nonnull _); reflexivity. }
  destruct (debugMode (self s)); run; eexists; (split; [reflexivity|]);
    cbn [self trace]; (split; [reflexivity|]);
    rewrite !view_cons, view_app, Hc; cbn [is_setup app];
    rewrite ?app_nil_r, <- ?app_assoc; reflexivity.
Qed.

(** X1.  The constructor always returns.  The install path is the
    directory part of the module file name; debug mode is on exactly when
    [debug.txt] is found there; both process records are zero; and a
    console is allocated, with stdout and stderr reopened on it, exactly in
    debug mode, after Winsock 2.2 was started. *)
Theorem ctor_debug_mode (w0 : world os) :
  let w1 := WSAStartup os (MAKEWORD 2 2) w0 in
  let dir := PathRemoveFileSpecW os (GetModuleFileNameW os w1) in
  let debug := PathFileExistsW os (dir ++ "\debug.txt") w1 in
  exists s0,
    RDOLauncher_ctor (boot w0) = Done tt s0 /\
    self s0 = {| installPath := dir;
                 backendProcess := PROCESS_INFORMATION_zero;
                 frontendProcess := PROCESS_INFORMATION_zero;
                 debugMode := debug |} /\
    file_queries (trace s0) = [(dir ++ "\debug.txt")%string] /\
    view is_setup (trace s0) =
      EvWSAStartup 514 :: EvGetModuleFileNameW (GetModuleFileNameW os w1) ::
      (if debug then [EvAllocConsole; EvFreopen "stdout"; EvFreopen "stderr"] else []).
Proof.
  cbv zeta. rewrite ctor_run. cbv zeta. eexists. split; [reflexivity|].
  cbn [self trace].
  destruct (PathFileExistsW os _ _); repeat split.
Qed.

(** X2.  [WinMain] returns the exit code of [Run] on the constructed
    launcher, and brackets the run: when [Run] returns, the destructor
    cleans Winsock up once and frees the console exactly when the
    constructor allocated one; nothing in between touches Winsock's
    start-up or the console.  A run still polling has torn nothing down. *)
Theorem WinMain_setup_and_teardown fuel (w0 : world os) :
  exit_code (WinMain fuel (boot w0)) =
    exit_code (Run fuel (final (RDOLauncher_ctor (boot w0)))) /\
  view is_setup (trace (final (WinMain fuel (boot w0)))) =
    view is_setup (trace (final (RDOLauncher_ctor (boot w0)))) ++
    match exit_code (Run fuel (final (RDOLauncher_ctor (boot w0)))) with
    | Some _ =>
        EvWSACleanup ::
        (if debugMode (self (final (RDOLauncher_ctor (boot w0))))
         then [EvFreeConsole] else [])
    | None => []
    end.
Proof.
  unfold WinMain, bind. rewrite ctor_run. cbv zeta. cbn [final].
  match goal with
  | |- context [Run fuel ?s0] =>
      destruct (Run_runs fuel s0) as (evs & T & _ & U & _ & D);
      destruct (Run fuel s0) as [code s1|s1]; cbn [final exit_code] in *
  end.
  - destruct (dtor_run s1) as (s2 & E2 & _ & V2). rewrite E2.
    unfold ret. cbn [final exit_code]. split; [reflexivity|].
    rewrite V2, T, view_app, (view_none _ _ U), D. rewrite app_nil_r. reflexivity.
  - split; [reflexivity|].
    rewrite T, view_app, (view_none _ _ U), !app_nil_r. reflexivity.
Qed.

(** X10.  [Run] itself releases nothing and tears nothing down: among its
    events there is no [TerminateProcess] and no [CloseHandle], no
    [WSAStartup] and no [WSACleanup], no console call and no query of the
    module path (they are the constructor's and the destructor's); it
    leaves the install path and the debug mode as they were. *)
Theorem Run_releases_nothing fuel (s : St os) :
  exists evs,
    trace (final (Run fuel s)) = evs ++ trace s /\
    filter is_release evs = [] /\
    filter is_setup evs = [] /\
    installPath (self (final (Run fuel s))) = installPath (self s) /\
    debugMode (self (final (Run fuel s))) = debugMode (self s).
Proof.
  destruct (Run_runs fuel s) as (evs & T & R & U & I & D).
  exists evs. repeat split; assumption.
Qed.

(** X9.  The install path and the debug mode are fixed by the constructor:
    in every state a launcher can be in between calls of its public methods
    they are those of the constructed launcher. *)
Theorem install_path_is_fixed (w0 : world os) (s : St os) :
  reachable w0 s ->
  installPath (self s) = installPath (self (final (RDOLauncher_ctor (boot w0)))) /\
  debugMode (self s) = debugMode (self (final (RDOLauncher_ctor (boot w0)))).
Proof.
  assert (K : forall s1 s2 : St os,
             runs s1 s2 ->
             installPath (self s2) = installPath (self s1) /\
             debugMode (self s2) = debugMode (self s1)).
  { intros s1 s2 (evs & _ & _ & _ & I & D). split; assumption. }
  induction 1 as [|s m Hr [IHi IHd]]; [split; reflexivity|].
  rewrite <- IHi, <- IHd.
  destruct m; cbn [invoke]; rewrite ?final_ignore.
  - apply K, VerifyInstallation_runs.
  - apply K, StartBackend_runs.
  - apply K, StartFrontend_runs.
  - apply K, WaitForExit_runs.
  - destruct (Cleanup_effect s) as [w' E]. rewrite E. split; reflexivity.
  - apply K, Run_runs.
  - destruct (dtor_run s) as (s' & E & Hs & _). rewrite E. cbn [final]. rewrite Hs.
    split; reflexivity.
Qed.

End Runs.

(** ** What is in the records, whatever [CreateProcessW] does *)

Section Records.

Context {os : OS}.



















End Records.

Section Children.

Context {os : OS}.

Lemma spawn_requests_app (evs tr : list Event) :
  spawn_requests (evs ++ tr) = spawn_requests tr ++ spawn_requests evs.
Proof. unfold spawn_requests. rewrite flat_map_app. apply rev_app_distr. Qed.

Lemma spawn_requests_cons (e : Event) (tr : list Event) :
  spawn_requests (e :: tr) =
  spawn_requests tr ++
  match e with EvCreateProcessW cmd _ cwd si _ _ => [(cmd, cwd, si)] | _ => [] end.
Proof.
  unfold spawn_requests. cbn [flat_map]. rewrite rev_app_distr.
  destruct e; reflexivity.
Qed.

Lemma spawn_requests_polls (evs : list Event) :
  Forall (fun e => is_poll e = true) evs -> spawn_requests (rev evs) = [].
Proof.
  intros H. unfold spawn_requests.
  rewrite (flat_map_none is_poll _ (rev evs)); [reflexivity|apply Forall_rev; exact H|].
  intros e He. destruct e; try discriminate He; reflexivity.
Qed.

Lemma wcerr_lines_cons (e : Event) (tr : list Event) :
  wcerr_lines (e :: tr) =
  wcerr_lines tr ++ match e with EvWcerr line => [line] | _ => [] end.
Proof.
  unfold wcerr_lines. cbn [flat_map]. rewrite rev_app_distr.
  destruct e; reflexivity.
Qed.

Lemma load_store_other (r : ProcRef) (v : PROCESS_INFORMATION) (l : RDOLauncher) :
  load (other r) (store r v l) = load (other r) l /\
  load r (store r v l) = v /\
  installPath (store r v l) = installPath l /\
  debugMode (store r v l) = debugMode l.
Proof. destruct r; repeat split. Qed.

(** X4.  [StartProcess], for any executable, arguments, member and window
    flag: it asks [CreateProcessW] once, for the quoted executable followed
    by the arguments, in a new console, in the install directory, hidden
    unless [showWindow]; it returns what [CreateProcessW] answered and
    stores the record it left in the member passed, leaving the other
    member, the install path and the debug mode alone; and it writes an
    error line, with the executable and the code of [GetLastError], exactly
    when the spawn failed. *)
Theorem StartProcess_result executable arguments (r : ProcRef) (showWindow : bool)
    (s : St os) :
  match CreateProcessW os (quoted executable ++ " " ++ arguments)%string CREATE_NEW_CONSOLE
          (installPath (self s)) (startupInfo_for showWindow) (load r (self s)) (w s)
  with
  | (ok, pi, w') =>
      exists s',
        StartProcess executable arguments r showWindow s = Done ok s' /\
        self s' = store r pi (self s) /\
        load (other r) (self s') = load (other r) (self s) /\
        w s' = w' /\
        spawn_requests (trace s') =
          spawn_requests (trace s) ++
          [((quoted executable ++ " " ++ arguments)%string, installPath (self s),
            startupInfo_for showWindow)] /\
        hidden (startupInfo_for showWindow) = negb showWindow /\
        wcerr_lines (trace s') =
          wcerr_lines (trace s) ++
          (if ok then []
           else [("Failed to start process: " ++ executable ++ " (Error: " ++
                  decimal (GetLastError os w') ++ ")")%string])
  end.
Proof.
  rewrite <- command_line_quoted. unfold command_line.
  run.
  assert (Hsi : (if showWindow then STARTUPINFOW_zero
                 else {| dwFlags := STARTF_USESHOWWINDOW; wShowWindow := SW_HIDE |}) =
                startupInfo_for showWindow) by reflexivity.
  assert (Hh : hidden (startupInfo_for showWindow) = negb showWindow)
    by (destruct showWindow; reflexivity).
  destruct showWindow; cbn [startupInfo_for] in *;
    (destruct (CreateProcessW os _ _ _ _ _ (w s)) as [[[|] pi] w']; run;
     eexists; (split; [reflexivity|]); cbn [self w trace];
     (split; [reflexivity|]);
     (split; [apply load_store_other|]);
     (split; [reflexivity|]);
     (split; [rewrite ?spawn_requests_cons;
              rewrite ?app_nil_r, <- ?app_assoc; reflexivity|]);
     (split; [exact Hh|]);
     rewrite ?wcerr_lines_cons; rewrite ?app_nil_r, <- ?app_assoc; reflexivity).
Qed.

(** X3.  [StartBackend], with any fuel: its one spawn request is the
    quoted interpreter followed by the quoted backend script, in the
    install directory, and the backend's window is hidden exactly when
    debug mode is off. *)
Theorem StartBackend_request fuel (s : St os) :
  spawn_requests (trace (final (StartBackend fuel s))) =
    spawn_requests (trace s) ++
    [ ((quoted (pythonPath_of (installPath (self s))) ++ " " ++
        quoted (backendPath_of (installPath (self s))))%string,
       installPath (self s),
       startupInfo_for (debugMode (self s))) ] /\
  hidden (startupInfo_for (debugMode (self s))) = negb (debugMode (self s)).
Proof.
  split; [|destruct (debugMode (self s)); reflexivity].
  rewrite StartBackend_effect. unfold backend_cmdLine, dialog_shown.
  rewrite command_line_quoted.
  destruct (backend_spawn s) as [[[|] pi] w'].
  - match goal with
    | |- context [WaitForPort fuel 5000 30 ?s1] =>
        destruct (WaitForPort_shape fuel 5000 30 s1) as (o & evs & Hp & Ht & _);
        destruct (WaitForPort fuel 5000 30 s1) as [[] s2|s2]
    end; cbn [final self w trace] in *; rewrite Ht;
      rewrite spawn_requests_app, (spawn_requests_polls evs (polling_kinds _ _ _ Hp));
      rewrite !spawn_requests_cons;
      rewrite ?app_nil_r, <- ?app_assoc; reflexivity.
  - cbn [final self w trace].
    rewrite !spawn_requests_cons;
      rewrite ?app_nil_r, <- ?app_assoc; reflexivity.
Qed.

(** The three messages differ, so a dialog tells which step failed. *)
Lemma failure_messages_differ :
  installation_failure_message <> backend_failure_message /\
  installation_failure_message <> frontend_failure_message /\
  backend_failure_message <> frontend_failure_message.
Proof. repeat split; vm_compute; discriminate. Qed.

(** X5.  [Run] shows exactly one error dialog when it returns 1, 2 or 3 -
    the message of the step that failed, the three messages being
    different - and none when it returns 0 or is still polling. *)
Theorem Run_dialogs fuel (s : St os) :
  view is_dialog (trace (final (Run fuel s))) =
    view is_dialog (trace s) ++ dialogs_of_exit (exit_code (Run fuel s)) /\
  installation_failure_message <> backend_failure_message /\
  installation_failure_message <> frontend_failure_message /\
  backend_failure_message <> frontend_failure_message.
Proof.
  split; [|exact failure_messages_differ].
  assert (Q : forall l : list Event,
             Forall (fun e => is_poll e = true) l -> filter is_dialog l = []).
  { intros l Hl. apply (filter_none is_poll); [exact Hl|].
    intros e He. apply (is_poll_plain e He). }
  rewrite Run_unfold.
  destruct (VerifyInstallation_kinds s) as (b1 & evs1 & E1 & K1). rewrite E1.
  assert (V1 : view is_dialog evs1 = []).
  { apply view_none. apply (filter_none is_verify); [exact K1|].
    intros e He. apply (is_verify_plain e He). }
  destruct b1.
  2:{ unfold dialog_shown. cbn [final exit_code dialogs_of_exit trace].
      rewrite view_cons, view_app, V1. cbn [is_dialog]. rewrite app_nil_r. reflexivity. }
  rewrite StartBackend_effect.
  destruct (backend_spawn _) as [[[|] pb] w1].
  2:{ unfold dialog_shown. cbn [final exit_code dialogs_of_exit self w trace].
      rewrite !view_cons, view_app, V1. cbn [is_dialog].
      rewrite ?app_nil_r, <- ?app_assoc. reflexivity. }
  match goal with
  | |- context [WaitForPort fuel 5000 30 ?s1] =>
      destruct (WaitForPort_shape fuel 5000 30 s1) as (o & evs & Hp & Ht & _);
      destruct (WaitForPort fuel 5000 30 s1) as [[] s2|s2]
  end; cbn [final self w trace] in Ht.
  2:{ cbn [final exit_code dialogs_of_exit]. rewrite Ht.
      rewrite view_app, view_rev, (Q evs (polling_kinds _ _ _ Hp)).
      rewrite !view_cons, view_app, V1. cbn [is_dialog].
      rewrite ?app_nil_r, <- ?app_assoc. reflexivity. }
  rewrite StartFrontend_effect. unfold one_second_later, dialog_shown.
  destruct (frontend_spawn _) as [[[|] pf] w3].
  - run. destruct (nonnull _);
      cbn [final exit_code dialogs_of_exit self w trace]; rewrite Ht;
      rewrite !view_cons, view_app, view_rev, (Q evs (polling_kinds _ _ _ Hp));
      rewrite !view_cons, view_app, V1; cbn [is_dialog];
      rewrite ?app_nil_r, <- ?app_assoc; reflexivity.
  - cbn [final exit_code dialogs_of_exit self w trace]. rewrite Ht.
    rewrite !view_cons, view_app, view_rev, (Q evs (polling_kinds _ _ _ Hp)).
    rewrite !view_cons, view_app, V1. cbn [is_dialog].
    rewrite ?app_nil_r, <- ?app_assoc. reflexivity.
Qed.

End Children.

Section Probing.

Context {os : OS}.

Lemma probe_failed_sockets port p :
  probe_failed port p -> sockets_closed p = sockets_opened p.
Proof. intros [|sk r Hr]; reflexivity. Qed.

Lemma polling_sockets port o evs :
  polling port o evs -> sockets_closed evs = sockets_opened evs.
Proof.
  unfold sockets_closed, sockets_opened.
  induction 1 as [sk|p Hp| |p o rest Hp Hrest IH].
  - reflexivity.
  - rewrite !flat_map_app. cbn. rewrite !app_nil_r.
    exact (probe_failed_sockets port p Hp).
  - reflexivity.
  - rewrite !flat_map_app. cbn [flat_map app]. rewrite IH.
    f_equal. exact (probe_failed_sockets port p Hp).
Qed.

(** X7.  [WaitForPort] leaks no socket: on any system and with any fuel,
    finished or not, the sockets it has closed are the sockets it has
    opened, in the same order. *)
Theorem WaitForPort_closes_its_sockets fuel port timeoutSeconds (s : St os) :
  exists evs,
    trace (final (WaitForPort fuel port timeoutSeconds s)) =
      rev evs ++ EvWcout ("Waiting for backend on port " ++ decimal port ++ "...")
              :: trace s /\
    sockets_closed evs = sockets_opened evs.
Proof.
  destruct (WaitForPort_shape fuel port timeoutSeconds s) as (o & evs & Hp & Ht & _).
  exists evs. split; [exact Ht|exact (polling_sockets port o evs Hp)].
Qed.

Lemma polling_no_sleep port o evs :
  polling port o evs ->
  sleeps evs = 0%nat ->
  o = Unfinished \/
  (exists sk,
      evs = [EvSocket_tcp (Some sk); EvConnect sk (loopback port) 0%Z; EvClosesocket sk;
             EvWcout "Backend is ready!"]) \/
  (exists p, probe_failed port p /\ evs = p ++ [EvWcerr "Timeout waiting for backend"]).
Proof.
  intros [sk|p Hp| |p o' rest Hp Hrest] Hs.
  - right; left. exists sk. reflexivity.
  - right; right. exists p. split; [exact Hp|reflexivity].
  - left. reflexivity.
  - rewrite sleeps_app in Hs.
    change (sleeps (EvSleepFor (milliseconds 500) :: rest)) with (S (sleeps rest)) in Hs.
    lia.
Qed.

(** X6.  A negative timeout still gives one probe: under the clock laws
    [WaitForPort] with [timeoutSeconds < 0] goes through its loop once,
    never sleeps, and returns on the connect or on the timeout line. *)
Theorem WaitForPort_negative_timeout (Hc : clock_laws os) port timeoutSeconds (s : St os) :
  (timeoutSeconds < 0)%Z ->
  exists evs s',
    WaitForPort 1 port timeoutSeconds s = Done tt s' /\
    trace s' = rev evs ++
               EvWcout ("Waiting for backend on port " ++ decimal port ++ "...") :: trace s /\
    sleeps evs = 0%nat /\
    ((exists sk,
         evs = [EvSocket_tcp (Some sk); EvConnect sk (loopback port) 0%Z; EvClosesocket sk;
                EvWcout "Backend is ready!"]) \/
     (exists p, probe_failed port p /\ evs = p ++ [EvWcerr "Timeout waiting for backend"])).
Proof.
  intros Hneg.
  set (s0 := {| self := self s; w := w s;
                trace := EvWcout ("Waiting for backend on port " ++ decimal port ++ "...")
                         :: trace s |}).
  destruct (WaitForPort_loop_returns Hc port (steady_clock_now os (w s))
              (seconds timeoutSeconds) 0 s0)
    as (o & evs & s' & Hrun & _ & Htr & Hpoll & Hsl & Hout).
  { subst s0. cbn [w]. unfold seconds, milliseconds. lia. }
  assert (Hs0 : sleeps evs = 0%nat) by lia.
  exists evs, s'. repeat split.
  - unfold WaitForPort. run. fold s0. exact Hrun.
  - exact Htr.
  - exact Hs0.
  - destruct (polling_no_sleep port o evs Hpoll Hs0) as [->|H]; [|exact H].
    destruct Hout as [H|[H _]]; discriminate H.
Qed.

Lemma htons_twice_from_spec n :
  forall q k,
    htons_twice_from n q = true ->
    (q <= k < q + Z.of_nat n)%Z ->
    htons (htons k) = k.
Proof.
  induction n as [|n IH]; intros q k H Hk; [lia|].
  cbn [htons_twice_from] in H. apply andb_prop in H. destruct H as [H1 H2].
  destruct (Z.eq_dec k q) as [->|Hne].
  - apply Z.eqb_eq. exact H1.
  - apply (IH (q + 1)%Z k H2). lia.
Qed.

Lemma htons_twice_all : htons_twice_from (Z.to_nat 65536) 0 = true.
Proof. vm_compute. reflexivity. Qed.

Lemma htons_narrow (port k : Z) : htons (port + 65536 * k) = htons port.
Proof.
  unfold htons. rewrite (Z.mul_comm 65536 k), Z_mod_plus_full. reflexivity.
Qed.

Lemma pass_narrow (port k startTime timeout : Z) (s : St os) :
  pass (port + 65536 * k) startTime timeout s = pass port startTime timeout s.
Proof.
  unfold pass, loopback. rewrite htons_narrow. reflexivity.
Qed.

(** X8.  The port is narrowed to 16 bits and sent in network byte order:
    swapping the bytes twice gives the port modulo 65536, and the polling
    loop does the same for two ports that differ by a multiple of 65536. *)
Theorem port_is_narrowed :
  (forall port, htons (htons port) = (port mod 65536)%Z) /\
  (forall fuel port k startTime timeout (s : St os),
      WaitForPort_loop fuel (port + 65536 * k) startTime timeout s =
      WaitForPort_loop fuel port startTime timeout s).
Proof.
  split.
  - intros port.
    assert (Hr : (0 <= port mod 65536 < 65536)%Z) by (apply Z.mod_pos_bound; lia).
    assert (Hm : htons port = htons (port mod 65536)).
    { unfold htons. rewrite Z.mod_mod by lia. reflexivity. }
    rewrite Hm.
    apply (htons_twice_from_spec (Z.to_nat 65536) 0 _ htons_twice_all).
    rewrite Z2Nat.id by lia. lia.
  - induction fuel as [|fuel IH]; intros port k startTime timeout s; [reflexivity|].
    rewrite !WaitForPort_loop_unfold, pass_narrow.
    destruct (pass port startTime timeout s); try reflexivity. apply IH.
Qed.

(** X11.  [VerifyInstallation] stops at the first missing dependency: the
    paths it asks the file system about are the four dependencies in order
    up to and including the first one that is not there, and no other. *)
Theorem VerifyInstallation_stops_at_first_missing (s : St os) :
  exists b evs,
    VerifyInstallation s = Done b {| self := self s; w := w s; trace := evs ++ trace s |} /\
    file_queries evs =
      until_missing (fun p => PathFileExistsW os p (w s))
                    (map fst (dependencies (installPath (self s)))).
Proof.
  unfold dependencies. cbn [map fst until_missing].
  unfold pythonPath_of, electronPath_of, backendPath_of, frontendPath_of.
  run.
  repeat match goal with
         | |- context [PathFileExistsW os ?p (w s)] =>
             destruct (PathFileExistsW os p (w s)); run
         end.
  all: eexists; eexists; split; [name_events|reflexivity].
Qed.

End Probing.

(** ** The further properties at work on the simulated system *)

Lemma WaitForPort_negative_timeout_witness :
  clock_laws (Sim.os Sim.deaf) /\ (-1 < 0)%Z /\
  exists s', WaitForPort 1 5000 (-1) (Sim.constructed Sim.deaf) = Done tt s'.
Proof.
  split; [apply Sim_clock_laws|]. split; [lia|].
  destruct (WaitForPort_negative_timeout (Sim_clock_laws Sim.deaf) 5000 (-1)
              (Sim.constructed Sim.deaf) eq_refl)
    as (evs & s' & Hrun & _).
  exists s'. exact Hrun.
Defined.

Lemma install_path_is_fixed_witness :
  reachable (os := Sim.os Sim.healthy) Sim.start
    (final (invoke (call_Run 5) (Sim.constructed Sim.healthy))) /\
  installPath (self (final (invoke (call_Run 5) (Sim.constructed Sim.healthy)))) =
    installPath (self (Sim.constructed Sim.healthy)).
Proof.
  assert (R : reachable (os := Sim.os Sim.healthy) Sim.start
                (final (invoke (call_Run 5) (Sim.constructed Sim.healthy)))).
  { apply reach_call. apply reach_ctor. }
  split; [exact R|].
  apply (install_path_is_fixed (os := Sim.os Sim.healthy) Sim.start _ R).
Defined.



